(** * The generate / assess / refine loop of [SimplifiedFlashcardSystem]

    A shallow embedding of [create_flashcards] (flashcard-generator.py):
    the numeric rubric, the iteration loop with its [continue] and [break]
    exits, and the conversion of the last candidate list into
    [QAFlashcard] records; then what surrounds it in the same file: the
    content directory and the content sources, the configuration check,
    the paste prompt and the printed summary. *)

From Stdlib Require Import ZArith Bool List Ascii String SpecFloat DecimalString
  DecimalNat.
From stdpp Require Import gmap strings list.

Local Open Scope Z_scope.

(** ** Python floats

    Scores are Python floats, that is IEEE 754 binary64 values.  They are
    modelled by [spec_float] at precision 53 and maximal exponent 1024, with
    round-to-nearest-even arithmetic.  The integer literals that the source
    mixes into float arithmetic ([0] as a default and as the start of [sum],
    [10] as the scale) are converted the way Python converts them, exactly.
    A JSON integer is identified with the binary64 value of the same
    magnitude. *)
Module Py.

Definition prec : Z := 53.
Definition emax : Z := 1024.

Abbreviation float := spec_float.

Definition add : float -> float -> float := SFadd prec emax.
Definition mul : float -> float -> float := SFmul prec emax.
Definition div : float -> float -> float := SFdiv prec emax.

Definition lt (x y : float) : bool := SFltb x y.
Definition le (x y : float) : bool := SFleb x y.
Definition eq (x y : float) : bool := SFeqb x y.
Definition ge (x y : float) : bool := SFleb y x.

(** [float(n)] for an integer [n]. *)
Definition of_int (n : Z) : float := binary_normalize prec emax n 0 false.

(** A decimal literal [n/d] denotes the binary64 nearest to it; the
    correctly rounded quotient of two exactly representable integers is
    that value. *)
Definition literal (n d : Z) : float := div (of_int n) (of_int d).

(** A value a JSON document can hold: a well-formed binary64. *)
Definition valid (x : float) : bool := valid_binary prec emax x.

(** The builtin [sum] over floats, starting from the integer 0: one
    rounded addition per item, left to right.  This is the loop of
    CPython up to version 3.11. *)
Definition sum (l : list float) : float := fold_left add l (of_int 0).

Definition sub : float -> float -> float := SFsub prec emax.
Definition abs : float -> float := SFabs.
Definition is_finite (x : float) : bool :=
  match x with
  | S754_zero _ | S754_finite _ _ _ => true
  | _ => false
  end.

(** From CPython 3.12 on, the float loop of [sum] carries a compensation
    term [c] (Neumaier's summation) and adds it at the end when it is
    non-zero and finite. *)
Fixpoint compensated (items : list float) (f_result c : float) : float :=
  match items with
  | [] => if negb (eq c (of_int 0)) && is_finite c then add f_result c
          else f_result
  | x :: rest =>
      let t := add f_result x in
      let c' :=
        if le (abs x) (abs f_result) then add c (add (sub f_result t) x)
        else add c (add (sub x t) f_result) in
      compensated rest t c'
  end.

Definition sum_compensated (l : list float) : float :=
  match l with
  | [] => of_int 0
  | x :: rest => compensated rest (add (of_int 0) x) (of_int 0)
  end.

End Py.

(** ** The quality rubric *)

(** [dict.get(key, default)] on a JSON object whose values are numbers. *)
Definition get (d : gmap string Py.float) (key : string) (default : Py.float)
  : Py.float :=
  match d !! key with
  | Some v => v
  | None => default
  end.

(** The [weights] table of the materialization step, in insertion order. *)
Definition weights : list (string * Py.float) :=
  [ ("conceptual_atomicity"%string, Py.literal 15 100);
    ("conciseness"%string, Py.literal 15 100);
    ("standalone_context"%string, Py.literal 1 10);
    ("requires_specific_answer"%string, Py.literal 1 10);
    ("no_hints"%string, Py.literal 1 10);
    ("technical_precision"%string, Py.literal 1 10);
    ("practical_value"%string, Py.literal 1 10);
    ("bidirectional_design"%string, Py.literal 1 10);
    ("uniqueness"%string, Py.literal 5 100);
    ("design_rationale"%string, Py.literal 5 100) ].

(** [sum(quality_factors.get(factor, 0) * weight
         for factor, weight in weights.items()) * 10] *)
Definition weighted_quality (quality_factors : gmap string Py.float)
  : Py.float :=
  Py.mul
    (Py.sum (map (fun fw => Py.mul (get quality_factors fw.1 (Py.of_int 0)) fw.2)
                 weights))
    (Py.of_int 10).

(** Minimum acceptable scores for the key factors. *)
Definition min_atomicity : Py.float := Py.literal 9 10.
Definition min_conciseness : Py.float := Py.literal 8 10.
Definition min_standalone : Py.float := Py.literal 9 10.
Definition min_no_hints : Py.float := Py.literal 9 10.

(** The condition of the [if] inside the per-card loop: some critical
    factor lies below its minimum. *)
Definition below_floor (factors : gmap string Py.float) : bool :=
  Py.lt (get factors "conceptual_atomicity" (Py.of_int 0)) min_atomicity
  || Py.lt (get factors "conciseness" (Py.of_int 0)) min_conciseness
  || Py.lt (get factors "standalone_context" (Py.of_int 0)) min_standalone
  || Py.lt (get factors "no_hints" (Py.of_int 0)) min_no_hints.

(** [quality_criteria_met] after the loop over the per-card assessments:
    it starts out true and the first card below a floor clears it and
    leaves the loop. *)
Fixpoint criteria_met (factors_of_cards : list (gmap string Py.float)) : bool :=
  match factors_of_cards with
  | [] => true
  | factors :: rest => if below_floor factors then false else criteria_met rest
  end.

(** ** Text

    Topics, prompts and card texts are ASCII strings. *)
Module Text.

Definition lower_char (c : ascii) : ascii :=
  let n := N_of_ascii c in
  if ((65 <=? n) && (n <=? 90))%N then ascii_of_N (n + 32) else c.


(** [s.lower()] for an ASCII [s], where the capitals [A] to [Z] are the
    only characters it changes.  Beyond ASCII [str.lower] lowers other
    cased letters too, so what is stated of a lower-cased text is stated
    of ASCII text. *)
Fixpoint lower (s : string) : string :=
  match s with
  | EmptyString => EmptyString
  | String c s' => String (lower_char c) (lower s')
  end.

(** [s.replace(old, new)] for one-character [old] and [new]. *)
Fixpoint replace_char (old new : ascii) (s : string) : string :=
  match s with
  | EmptyString => EmptyString
  | String c s' =>
      String (if Ascii.eqb c old then new else c) (replace_char old new s')
  end.

(** ['0' * k] *)
Fixpoint zeros (k : nat) : string :=
  match k with
  | O => EmptyString
  | S k' => String "0" (zeros k')
  end.

(** [f"{n:03d}"] for a non-negative [n]: the decimal digits, padded on
    the left with zeros up to three characters. *)
Definition format_03d (n : nat) : string :=
  let digits := NilZero.string_of_uint (Nat.to_uint n) in
  zeros (3 - String.length digits) +:+ digits.

(** [sep.join(items)] *)
Fixpoint join (sep : string) (items : list string) : string :=
  match items with
  | [] => EmptyString
  | [x] => x
  | x :: rest => x +:+ sep +:+ join sep rest
  end.

Definition isspace (c : ascii) : bool :=
  let n := N_of_ascii c in
  (((9 <=? n) && (n <=? 13)) || ((28 <=? n) && (n <=? 32)))%N.

(** [not s.strip()]: nothing but white space. *)
Fixpoint blank (s : string) : bool :=
  match s with
  | EmptyString => true
  | String c s' => isspace c && blank s'
  end.

End Text.

(** ** Decoded JSON documents

    The objects that [json.loads] yields are read through [.get(key,
    default)] only, so each is a record of optional fields: [None] is a
    missing key. *)

(** One entry of ["flashcards"]. *)
Module CardData.
Record t : Type := Build {
  question : option string;
  answer : option string;
  concept : option string;
  difficulty : option string;
  quality_factors : option (gmap string Py.float)
}.
End CardData.

(** A generation or refinement document. *)
Module FlashcardData.
Record t : Type := Build {
  flashcards : option (list CardData.t)
}.
End FlashcardData.

(** One entry of ["assessments"]. *)
Module CardAssessment.
Record t : Type := Build {
  card_index : option Z;
  quality_factors : option (gmap string Py.float);
  weighted_score : option Py.float
}.
End CardAssessment.

(** An assessment document. *)
Module Assessment.
Record t : Type := Build {
  overall_score : option Py.float;
  critical_issues : option Py.float;
  quality_distribution : option (gmap string Z);
  assessments : option (list CardAssessment.t);
  improvement_priorities : option (list string)
}.
End Assessment.

(** An entry of [iteration_metrics]. *)
Module Metrics.
Record t : Type := Build {
  iteration : nat;
  overall_score : Py.float;
  critical_issues : Py.float;
  quality_distribution : gmap string Z;
  improvement_priorities : list string
}.
End Metrics.

(** The output record. *)
Record QAFlashcard : Type := {
  question : string;
  answer : string;
  topic : string;
  difficulty : string;
  quality_score : Py.float;
  concept : string;
  id : string
}.

(** ** Materialization: the conversion to [QAFlashcard] objects *)

(** [card_quality] of one card: the weighted sum when the card carries
    quality factors, the last [overall_score] otherwise. *)
Definition card_quality (quality_factors : gmap string Py.float)
    (overall_score : Py.float) : Py.float :=
  if decide (quality_factors = ∅) then overall_score
  else weighted_quality quality_factors.

(** [f"{topic.lower().replace(' ', '_')}_{i+1:03d}"] *)
Definition card_id (topic : string) (i : nat) : string :=
  Text.replace_char " " "_" (Text.lower topic) +:+ "_" +:+ Text.format_03d (i + 1).

Definition make_flashcard (topic difficulty : string) (overall_score : Py.float)
    (i : nat) (card_data : CardData.t) : QAFlashcard :=
  {| question := default ""%string (CardData.question card_data);
     answer := default ""%string (CardData.answer card_data);
     topic := topic;
     difficulty := default difficulty (CardData.difficulty card_data);
     quality_score :=
       card_quality (default ∅ (CardData.quality_factors card_data)) overall_score;
     concept := default ""%string (CardData.concept card_data);
     id := card_id topic i |}.

(** The final [for i, card_data in enumerate(cards_data)] loop.  A document
    without the ["flashcards"] key yields no card whether or not the guard
    [if flashcard_data] lets it through. *)
Definition final_cards (topic difficulty : string)
    (flashcard_data : option FlashcardData.t) (overall_score : Py.float)
  : list QAFlashcard :=
  match flashcard_data with
  | Some data =>
      imap (make_flashcard topic difficulty overall_score)
           (default [] (FlashcardData.flashcards data))
  | None => []
  end.

(** ** The completion service

    [_generate_flashcards], [_assess_flashcards] and [_refine_flashcards]
    return text that the loop hands to [json.loads].  A call and the
    decoding of its answer have three outcomes: an exception other than
    [JSONDecodeError] (it reaches the outer handler and is raised again),
    a [JSONDecodeError], or a decoded document.  The service is an
    oracle over a state [W] of its own. *)
Inductive reply (A : Type) : Type :=
  | Raises
  | Undecodable
  | Decoded (doc : A).
Arguments Raises {A}.
Arguments Undecodable {A}.
Arguments Decoded {A} doc.

Record service (W : Type) : Type := {
  generate_flashcards :
    string -> string -> string -> string -> W -> reply FlashcardData.t * W;
  assess_flashcards :
    FlashcardData.t -> string -> W -> reply Assessment.t * W;
  refine_flashcards :
    FlashcardData.t -> Assessment.t -> string -> W -> reply FlashcardData.t * W
}.
Arguments generate_flashcards {W}.
Arguments assess_flashcards {W}.
Arguments refine_flashcards {W}.

(** The calls made so far, oldest first: a ghost record of the run. *)
Inductive call : Type :=
  | Generate (feedback : string)
  | Assess (flashcard_data : FlashcardData.t)
  | Refine (flashcard_data : FlashcardData.t) (assessment : Assessment.t).

Definition is_generate (c : call) : bool :=
  match c with Generate _ => true | _ => false end.
Definition is_assess (c : call) : bool :=
  match c with Assess _ => true | _ => false end.
Definition is_refine (c : call) : bool :=
  match c with Refine _ _ => true | _ => false end.

(** ** The loop *)

Definition initial_feedback : string :=
  "Initial creation - focus on high-quality, concise flashcards.".
Definition fallback_feedback : string :=
  "Continue improving quality with focus on technical precision and bidirectional design.".

(** [f"Focus on: {'; '.join(priorities[:2])}"], or the fallback when
    [priorities] is empty. *)
Definition next_feedback (priorities : list string) : string :=
  match priorities with
  | [] => fallback_feedback
  | _ => "Focus on: " +:+ Text.join "; " (take 2 priorities)
  end.

(** The variables that live across iterations. *)
Record state (W : Type) : Type := State {
  feedback : string;
  flashcard_data : option FlashcardData.t;
  overall_score : Py.float;
  iteration_metrics : list Metrics.t;
  world : W;
  calls : list call
}.
Arguments State {W}.
Arguments feedback {W}.
Arguments flashcard_data {W}.
Arguments overall_score {W}.
Arguments iteration_metrics {W}.
Arguments world {W}.
Arguments calls {W}.

(** Why the loop was left through [break]. *)
Inductive break_reason : Type :=
  | QualityReached
  | RefinementUndecodable.

(** How one pass through the body ends.  An exception that propagates
    discards the local variables; the calls made up to it are kept for
    the record. *)
Inductive step (W : Type) : Type :=
  | Continue (st : state W)
  | Break (why : break_reason) (st : state W)
  | Propagate (made : list call).
Arguments Continue {W}.
Arguments Break {W}.
Arguments Propagate {W}.

(** The test that guards the first [break]. *)
Definition quality_reached (quality_threshold : Py.float)
    (assessment : Assessment.t) : bool :=
  let overall_score := default (Py.of_int 0) (Assessment.overall_score assessment) in
  let critical_issues := default (Py.of_int 0) (Assessment.critical_issues assessment) in
  let assessments := default [] (Assessment.assessments assessment) in
  let quality_criteria_met :=
    criteria_met
      (map (fun card_assessment =>
              default ∅ (CardAssessment.quality_factors card_assessment))
           assessments) in
  Py.ge overall_score quality_threshold
  && Py.eq critical_issues (Py.of_int 0)
  && quality_criteria_met.

Section Loop.
Context {W : Type}.
Variable svc : service W.
Variables topic final_content difficulty : string.
Variable quality_threshold : Py.float.

(** The body of [for iteration in range(max_iterations)]. *)
Definition body (iteration : nat) (st : state W) : step W :=
  (* Stage 1: generate *)
  match generate_flashcards svc topic final_content difficulty
          (feedback st) (world st) with
  | (Raises, _) => Propagate (calls st ++ [Generate (feedback st)])
  | (Undecodable, w1) =>
      Continue (State (feedback st) (flashcard_data st) (overall_score st)
                  (iteration_metrics st) w1
                  (calls st ++ [Generate (feedback st)]))
  | (Decoded data, w1) =>
      let calls1 := calls st ++ [Generate (feedback st)] in
      let cards_data := default [] (FlashcardData.flashcards data) in
      if (length cards_data =? 0)%nat then
        Continue (State (feedback st) (Some data) (overall_score st)
                    (iteration_metrics st) w1 calls1)
      else
        (* Stage 2: assess *)
        match assess_flashcards svc data topic w1 with
        | (Raises, _) => Propagate (calls1 ++ [Assess data])
        | (Undecodable, w2) =>
            Continue (State (feedback st) (Some data) (overall_score st)
                        (iteration_metrics st) w2 (calls1 ++ [Assess data]))
        | (Decoded assessment, w2) =>
            let calls2 := calls1 ++ [Assess data] in
            let score :=
              default (Py.of_int 0) (Assessment.overall_score assessment) in
            let metrics :=
              iteration_metrics st ++
              [ Metrics.Build (iteration + 1) score
                  (default (Py.of_int 0) (Assessment.critical_issues assessment))
                  (default ∅ (Assessment.quality_distribution assessment))
                  (default [] (Assessment.improvement_priorities assessment)) ] in
            if quality_reached quality_threshold assessment then
              Break QualityReached
                (State (feedback st) (Some data) score metrics w2 calls2)
            else
              (* Stage 3: refine *)
              match refine_flashcards svc data assessment topic w2 with
              | (Raises, _) => Propagate (calls2 ++ [Refine data assessment])
              | (Undecodable, w3) =>
                  Break RefinementUndecodable
                    (State (feedback st) (Some data) score metrics w3
                       (calls2 ++ [Refine data assessment]))
              | (Decoded refined_data, w3) =>
                  Continue
                    (State
                       (next_feedback
                          (default [] (Assessment.improvement_priorities assessment)))
                       (Some refined_data) score metrics w3
                       (calls2 ++ [Refine data assessment]))
              end
        end
  end.

(** How the whole loop ends. *)
Inductive loop_exit : Type :=
  | Exhausted (st : state W)
  | Broke (why : break_reason) (st : state W)
  | Propagated (made : list call).

(** [remaining] passes are left, the next one is number [iteration]. *)
Fixpoint loop (remaining iteration : nat) (st : state W) : loop_exit :=
  match remaining with
  | O => Exhausted st
  | S remaining' =>
      match body iteration st with
      | Continue st' => loop remaining' (S iteration) st'
      | Break why st' => Broke why st'
      | Propagate made => Propagated made
      end
  end.

(** The calls made by the time the loop is left. *)
Definition calls_of (exit : loop_exit) : list call :=
  match exit with
  | Exhausted st | Broke _ st => calls st
  | Propagated made => made
  end.

Definition initial_state (w : W) : state W :=
  State initial_feedback None (Py.of_int 0) [] w [].

(** [for iteration in range(max_iterations)], from the initial values. *)
Definition run (max_iterations : Z) (w : W) : loop_exit :=
  loop (Z.to_nat max_iterations) 0 (initial_state w).

(** What a call of [create_flashcards] amounts to. *)
Inductive result : Type :=
  | Raised
  | Returned (final_cards : list QAFlashcard).

(** The code after the loop: every exit but an exception converts the
    current [flashcard_data]. *)
Definition finish (exit : loop_exit) : result :=
  match exit with
  | Exhausted st | Broke _ st =>
      Returned (final_cards topic difficulty (flashcard_data st)
                  (overall_score st))
  | Propagated _ => Raised
  end.

(** [create_flashcards], from the point where [final_content] has been
    obtained from the content source. *)
Definition create_flashcards (max_iterations : Z) (w : W) : result :=
  if Text.blank final_content then Raised
  else finish (run max_iterations w).

End Loop.

(** The calls recorded by one pass, whatever its outcome. *)
Definition step_calls {W : Type} (s : step W) : list call :=
  match s with
  | Continue st | Break _ st => calls st
  | Propagate made => made
  end.

(** How often a kind of call occurs in a record. *)
Definition occurrences (kind : call -> bool) (made : list call) : nat :=
  length (List.filter kind made).

(** ** Concrete services *)

(** A service that answers from a script: each kind of call consumes the
    next scripted reply of its kind, and raises once they are used up. *)
Module Scripted.

Record script : Type := Script {
  generations : list (reply FlashcardData.t);
  assessments : list (reply Assessment.t);
  refinements : list (reply FlashcardData.t)
}.

Definition next {A : Type} (pending : list (reply A)) : reply A * list (reply A) :=
  match pending with
  | [] => (Raises, [])
  | r :: rest => (r, rest)
  end.

Definition svc : service script :=
  {| generate_flashcards := fun _ _ _ _ w =>
       let (r, rest) := next (generations w) in
       (r, Script rest (assessments w) (refinements w));
     assess_flashcards := fun _ _ w =>
       let (r, rest) := next (assessments w) in
       (r, Script (generations w) rest (refinements w));
     refine_flashcards := fun _ _ _ w =>
       let (r, rest) := next (refinements w) in
       (r, Script (generations w) (assessments w) rest) |}.

End Scripted.

(** A service none of whose answers is valid JSON. *)
Definition garbled : service unit :=
  {| generate_flashcards := fun _ _ _ _ w => (Undecodable, w);
     assess_flashcards := fun _ _ w => (Undecodable, w);
     refine_flashcards := fun _ _ _ w => (Undecodable, w) |}.

(** Sample documents. *)
Module Sample.

Definition one : Py.float := Py.of_int 1.
Definition half : Py.float := Py.literal 5 10.
Definition nine : Py.float := Py.of_int 9.
Definition eight : Py.float := Py.of_int 8.

(** Every factor of the table at the same score. *)
Definition uniform (score : Py.float) : gmap string Py.float :=
  list_to_map (map (fun fw : string * Py.float => (fw.1, score)) weights).

Definition card (q a : string) : CardData.t :=
  CardData.Build (Some q) (Some a) (Some "mqtt"%string) None (Some (uniform one)).

Definition deck : FlashcardData.t :=
  FlashcardData.Build
    (Some [ card "What does MQTT QoS 0 guarantee?" "At most once delivery.";
            card "What port does MQTT use for unencrypted traffic?" "1883." ]).

Definition refined_deck : FlashcardData.t :=
  FlashcardData.Build
    (Some [ card "What does MQTT QoS 0 guarantee?" "At-most-once delivery." ]).

Definition empty_deck : FlashcardData.t := FlashcardData.Build (Some []).

Definition card_assessment (factors : gmap string Py.float) : CardAssessment.t :=
  CardAssessment.Build (Some 0) (Some factors) (Some nine).

(** An assessment that meets every criterion. *)
Definition good : Assessment.t :=
  Assessment.Build (Some nine) (Some (Py.of_int 0)) None
    (Some [ card_assessment (uniform one); card_assessment (uniform one) ])
    (Some []).

(** A high score, no critical issue, and no per-card entry. *)
Definition bare : Assessment.t :=
  Assessment.Build (Some nine) (Some (Py.of_int 0)) None (Some []) None.

(** An assessment with two critical issues and three priorities. *)
Definition poor : Assessment.t :=
  Assessment.Build (Some (Py.of_int 6)) (Some (Py.of_int 2)) None
    (Some [ card_assessment (<["conceptual_atomicity"%string := half]> (uniform one)) ])
    (Some [ "shorten answers"; "add context"; "split compound cards" ]%string).

(** Every factor at 1.0 except a conceptual atomicity of 0.5. *)
Definition weak_atomicity : gmap string Py.float :=
  <["conceptual_atomicity"%string := half]> (uniform one).

End Sample.

(** The variables after a pass whose generation and assessment decoded,
    at the point where the quality test is made. *)
Definition assessed_state {W : Type} (iteration : nat) (st : state W)
    (data : FlashcardData.t) (assessment : Assessment.t) (w2 : W) : state W :=
  State (feedback st) (Some data)
    (default (Py.of_int 0) (Assessment.overall_score assessment))
    (iteration_metrics st ++
      [ Metrics.Build (iteration + 1)
          (default (Py.of_int 0) (Assessment.overall_score assessment))
          (default (Py.of_int 0) (Assessment.critical_issues assessment))
          (default ∅ (Assessment.quality_distribution assessment))
          (default [] (Assessment.improvement_priorities assessment)) ])
    w2 (calls st ++ [Generate (feedback st); Assess data]).

(** A critical factor that is missing, or present and below [floor]. *)
Definition fails_floor (factors : gmap string Py.float) (key : string)
    (floor : Py.float) : Prop :=
  match factors !! key with
  | None => True
  | Some v => Py.lt v floor = true
  end.

(** Scripts for sample runs. *)
Module Run.

Definition topic : string := "MQTT".
Definition content : string := "MQTT is a publish/subscribe protocol.".
Definition level : string := "intermediate".

Definition converging : Scripted.script :=
  Scripted.Script [Decoded Sample.deck] [Decoded Sample.good] [].

Definition wasteful : state Scripted.script :=
  initial_state (Scripted.Script [Decoded Sample.empty_deck; Undecodable] [] []).

Definition failing_refinement : state Scripted.script :=
  initial_state
    (Scripted.Script [Decoded Sample.deck; Decoded Sample.refined_deck]
       [Decoded Sample.poor; Decoded Sample.good] [Undecodable]).

Definition refining : state Scripted.script :=
  initial_state
    (Scripted.Script [Decoded Sample.deck] [Decoded Sample.poor]
       [Decoded Sample.refined_deck]).

Definition unassessed_cards : state Scripted.script :=
  initial_state (Scripted.Script [Decoded Sample.deck] [Decoded Sample.bare] []).

End Run.

(** A score as the rubric means it: a well-formed float between 0 and 1. *)
Definition unit_score (v : Py.float) : bool :=
  Py.valid v && Py.le (Py.of_int 0) v && Py.le v (Py.of_int 1).

(** ** Rounding, arithmetically

    What [binary_round_aux] computes on a positive integer mantissa,
    written with quotients and remainders instead of bit shifts. *)
Module Round.

Definition emin : Z := emin Py.prec Py.emax.
Definition fexp (k : Z) : Z := fexp Py.prec Py.emax k.

(** The mantissa [m] shifted right by [j] bits and rounded to nearest,
    ties to even. *)
Definition nearest_even (m j : Z) : Z :=
  let q := m / 2 ^ j in
  let r := m mod 2 ^ j in
  if 2 * r <? 2 ^ j then q
  else if 2 ^ j <? 2 * r then q + 1
  else if Z.even q then q else q + 1.

(** A rounded mantissa [r] at exponent [e] as a float: one more shift
    when the rounding carried into bit [prec], infinity beyond the
    largest exponent. *)
Definition pack (r e : Z) : Py.float :=
  let '(m, e') := if r =? 2 ^ Py.prec then (2 ^ (Py.prec - 1), e + 1) else (r, e) in
  match m with
  | Zpos p => if e' <=? Py.emax - Py.prec then S754_finite false p e'
              else S754_infinity false
  | _ => S754_zero false
  end.

(** The float nearest to [m * 2 ^ e], for [m > 0]. *)
Definition round (m e : Z) : Py.float :=
  let e' := fexp (Zdigits2 m + e) in
  pack (nearest_even m (e' - e)) e'.

(** Zero or a well-formed positive finite float. *)
Definition nonneg (x : Py.float) : bool :=
  match x with
  | S754_zero _ => true
  | S754_finite false m e => bounded Py.prec Py.emax m e
  | _ => false
  end.

(** The value of a non-negative float, in units of [2 ^ emin]. *)
Definition val (x : Py.float) : Z :=
  match x with
  | S754_finite false m e => Zpos m * 2 ^ (e - emin)
  | _ => 0
  end.

(** Adding [terms] to [acc] one by one never leaves the non-negative
    finite floats. *)
Fixpoint stays_finite (terms : list Py.float) (acc : Py.float) : bool :=
  match terms with
  | [] => nonneg acc
  | w :: rest => nonneg acc && nonneg w && stays_finite rest (Py.add acc w)
  end.

End Round.


(** ** The shape of a run *)

(** The calls of one pass: a generation, then possibly the assessment of
    the generated document, then possibly the refinement of that same
    document under that assessment. *)
Inductive pass_calls : list call -> Prop :=
  | pass_generate feedback :
      pass_calls [Generate feedback]
  | pass_assess feedback data :
      pass_calls [Generate feedback; Assess data]
  | pass_refine feedback data assessment :
      pass_calls [Generate feedback; Assess data; Refine data assessment].

(** A record made of whole passes. *)
Inductive passes : list call -> Prop :=
  | passes_nil : passes []
  | passes_snoc made pass : passes made -> pass_calls pass -> passes (made ++ pass).

(** The feedback texts the loop can hand to a generation. *)
Definition feedback_origin (feedback : string) : Prop :=
  feedback = initial_feedback
  \/ feedback = fallback_feedback
  \/ exists priorities : list string,
       priorities <> []
       /\ feedback = "Focus on: " +:+ Text.join "; " (take 2 priorities).

(** [overall_score] as the iteration records imply it: the score of the
    last record, the integer 0 before any. *)
Definition recorded_score (metrics : list Metrics.t) : Py.float :=
  match last metrics with
  | Some m => Metrics.overall_score m
  | None => Py.of_int 0
  end.

(** The iteration numbers are increasing and lie in [lo+1 .. hi]. *)
Fixpoint numbered (lo hi : nat) (metrics : list Metrics.t) : Prop :=
  match metrics with
  | [] => True
  | m :: rest =>
      (lo < Metrics.iteration m <= hi)%nat /\ numbered (Metrics.iteration m) hi rest
  end.

(** The variables a loop exit leaves behind, when it leaves any. *)
Definition final_state {W : Type} (exit : loop_exit) : option (state W) :=
  match exit with
  | Exhausted st | Broke _ st => Some st
  | Propagated _ => None
  end.

(** The feedback of every generation call of a record has a known origin. *)
Definition generate_feedback_known (c : call) : Prop :=
  match c with
  | Generate feedback => feedback_origin feedback
  | _ => True
  end.

(** What holds of the loop variables before pass number [iteration]. *)
Definition kept {W : Type} (iteration : nat) (st : state W) : Prop :=
  numbered 0 iteration (iteration_metrics st)
  /\ overall_score st = recorded_score (iteration_metrics st)
  /\ feedback_origin (feedback st)
  /\ Forall generate_feedback_known (calls st).

(** More sample runs. *)
Module Run2.

Definition unassessable : state Scripted.script :=
  initial_state (Scripted.Script [Decoded Sample.deck] [Undecodable] []).

End Run2.

(** ** More text operations *)
Module Str.

(** [s.lstrip()] *)
Fixpoint lstrip (s : string) : string :=
  match s with
  | EmptyString => EmptyString
  | String c s' => if Text.isspace c then lstrip s' else s
  end.

(** [s.rstrip()] *)
Fixpoint rstrip (s : string) : string :=
  match s with
  | EmptyString => EmptyString
  | String c s' =>
      match rstrip s' with
      | EmptyString => if Text.isspace c then EmptyString else String c EmptyString
      | kept => String c kept
      end
  end.

(** [s.strip()] *)
Definition strip (s : string) : string := rstrip (lstrip s).

(** [needle in hay] *)
Fixpoint contains (needle hay : string) : bool :=
  String.prefix needle hay
  || match hay with
     | EmptyString => false
     | String _ hay' => contains needle hay'
     end.

(** [s.endswith(suffix)] *)
Fixpoint endswith (s suffix : string) : bool :=
  String.eqb s suffix
  || match s with
     | EmptyString => false
     | String _ s' => endswith s' suffix
     end.


Definition is_upper (c : ascii) : bool :=
  let n := N_of_ascii c in ((65 <=? n) && (n <=? 90))%N.

(** What text mode with [newline=None] does to line endings on reading:
    a carriage return followed by a line feed, and a carriage return on
    its own, are read as one line feed. *)
Fixpoint universal_newlines (s : string) : string :=
  match s with
  | EmptyString => EmptyString
  | String c s' =>
      if Ascii.eqb c "013" then
        match s' with
        | String d s'' =>
            if Ascii.eqb d "010" then String "010" (universal_newlines s'')
            else String "010" (universal_newlines s')
        | EmptyString => String "010" EmptyString
        end
      else String c (universal_newlines s')
  end.


End Str.

(** ** The content directory

    [ContentManager] keeps text files in one directory.  The directory is
    a finite map from file names to the text of the files, as [f.read()]
    yields it on a file opened in text mode. *)
Module ContentManager.

(** [f.write(text)] on a file opened with ['w'] in text mode: the file
    then holds [text], which is read back with its line endings
    normalised.  (The line separator of the platform is taken to be the
    line feed, as on POSIX systems, so that writing translates nothing.) *)
Definition write (files : gmap string string) (filename text : string)
  : gmap string string :=
  <[filename := Str.universal_newlines text]> files.

(** The texts of the table [sample_files], as written in the source. *)
Definition azure_openai_text : string :=
  "
Azure OpenAI Service provides REST API access to OpenAI's language models including GPT-4, GPT-3.5-turbo, and embedding models.

Key Features:
- Multiple model deployments with custom names
- Fine-tuning capabilities for custom models  
- Content filtering and safety features
- Token-based pricing and quota management
- Integration with Azure security and compliance

Important Parameters:
- Temperature: Controls randomness (0.0-2.0)
- Max tokens: Maximum response length
- Top-p: Nucleus sampling parameter
- Frequency penalty: Reduces repetition
- Presence penalty: Encourages topic diversity

Authentication uses Azure AD and API keys.
Deployments can be managed through Azure portal or REST APIs.
            ".

Definition azure_functions_text : string :=
  "
Azure Functions is a serverless compute service that lets you run event-triggered code without having to explicitly provision or manage infrastructure.

Key Features:
- Event-driven and serverless architecture
- Multiple programming language support (C#, JavaScript, Python, PowerShell, Java)
- Automatic scaling based on demand
- Pay-per-execution pricing model
- Integration with Azure services and third-party services

Trigger Types:
- HTTP triggers for REST APIs
- Timer triggers for scheduled tasks
- Blob storage triggers for file processing
- Queue triggers for message processing
- Event Grid triggers for event handling

Hosting Plans:
- Consumption Plan (serverless)
- Premium Plan (enhanced performance)
- App Service Plan (dedicated resources)
            ".

Definition custom_content_text : string :=
  "
Paste your custom content here for flashcard generation.

You can include:
- Technical documentation
- Study materials
- Learning notes
- Course content
- Any text-based information

The AI will automatically generate high-quality flashcards from this content.
            ".

(** The table [sample_files] of [_create_sample_files]. *)
Definition sample_files : list (string * string) :=
  [ ("azure_openai.txt"%string, azure_openai_text);
    ("azure_functions.txt"%string, azure_functions_text);
    ("custom_content.txt"%string, custom_content_text) ].

(** [_create_sample_files]: each sample file that does not exist is
    written with its text stripped. *)
Definition _create_sample_files (files : gmap string string) : gmap string string :=
  fold_left
    (fun files (sample : string * string) =>
       match files !! sample.1 with
       | Some _ => files
       | None => write files sample.1 (Str.strip sample.2)
       end)
    sample_files files.

(** [read_content_file]: [None] is [FileNotFoundError]. *)
Definition read_content_file (files : gmap string string) (filename : string)
  : option string :=
  match files !! filename with
  | Some text => Some (Str.strip text)
  | None => None
  end.


End ContentManager.

(** ** Where the content comes from *)

Inductive ContentSource : Type :=
  | AUTO_GENERATE
  | TEXT_FILE
  | DIRECT_INPUT
  | PREDEFINED
  | WIKIPEDIA.

Inductive DifficultyLevel : Type :=
  | BEGINNER
  | INTERMEDIATE
  | ADVANCED.

(** [difficulty.value] *)
Definition DifficultyLevel_value (difficulty : DifficultyLevel) : string :=
  match difficulty with
  | BEGINNER => "beginner"
  | INTERMEDIATE => "intermediate"
  | ADVANCED => "advanced"
  end.

(** The exceptions that leave [create_flashcards]. *)
Inductive exn : Type :=
  | ValueError (message : string)
  | FileNotFoundError (message : string)
  | OtherError.

(** The table [predefined_topics] of [_get_predefined_content]. *)
Definition predefined_topics : list (string * string) :=
  [ ("azure openai"%string, "azure_openai.txt"%string);
    ("azure functions"%string, "azure_functions.txt"%string) ].

(** The loop of [_get_predefined_content] over the table: the first key
    found in the lower-cased topic whose file can be read decides. *)
Fixpoint first_readable (files : gmap string string) (topic_lower : string)
    (table : list (string * string)) : option string :=
  match table with
  | [] => None
  | (key, filename) :: rest =>
      if Str.contains key topic_lower then
        match ContentManager.read_content_file files filename with
        | Some text => Some text
        | None => first_readable files topic_lower rest
        end
      else first_readable files topic_lower rest
  end.

Definition _get_predefined_content (files : gmap string string) (topic : string)
  : string :=
  match first_readable files (Text.lower topic) predefined_topics with
  | Some text => text
  | None => "Please provide content about " +:+ topic +:+ " to generate flashcards."
  end.

Section Content.
Context {W : Type}.
(** [_auto_generate_content]: a call to the service, [None] when it
    raises. *)
Variable _auto_generate_content : string -> string -> W -> option string * W.
(** [wikipedia.summary(topic, sentences=10)], [None] when it raises. *)
Variable wikipedia_summary : string -> option string.

(** The first part of [create_flashcards]: the choice of [final_content],
    up to the test that it is not blank. *)
Definition final_content_of (topic content : string)
    (content_source : ContentSource) (content_file : string)
    (difficulty : DifficultyLevel) (files : gmap string string) (w : W)
  : exn + string * W :=
  let chosen : exn + string * W :=
    match content_source with
    | AUTO_GENERATE =>
        match _auto_generate_content topic (DifficultyLevel_value difficulty) w with
        | (Some text, w') => inr (text, w')
        | (None, _) => inl OtherError
        end
    | TEXT_FILE =>
        if String.eqb content_file "" then
          inl (ValueError "Content file must be specified when using TEXT_FILE source")
        else
          match ContentManager.read_content_file files content_file with
          | Some text => inr (text, w)
          | None => inl (FileNotFoundError ("Content file not found: " +:+ content_file))
          end
    | DIRECT_INPUT =>
        if String.eqb content "" then
          inl (ValueError "Content must be provided when using DIRECT_INPUT source")
        else inr (content, w)
    | _ => inr (_get_predefined_content files topic, w)
    end in
  match chosen with
  | inl e => inl e
  | inr (text, w') =>
      let fetched : exn + string :=
        match content_source with
        | WIKIPEDIA =>
            match wikipedia_summary topic with
            | Some summary => inr summary
            | None =>
                inl (ValueError ("Could not fetch Wikipedia content for '"
                                 +:+ topic +:+ "'"))
            end
        | _ => inr text
        end in
      match fetched with
      | inl e => inl e
      | inr final_content =>
          if Text.blank final_content then
            inl (ValueError "No content available for flashcard generation")
          else inr (final_content, w')
      end
  end.

(** The whole of [create_flashcards]: the content, then the loop and the
    conversion.  An exception out of the loop is one a service call
    raised. *)
Definition create_flashcards_from (svc : service W) (topic content : string)
    (content_source : ContentSource) (content_file : string)
    (difficulty : DifficultyLevel) (max_iterations : Z)
    (quality_threshold : Py.float) (files : gmap string string) (w : W)
  : exn + list QAFlashcard :=
  match final_content_of topic content content_source content_file difficulty
          files w with
  | inl e => inl e
  | inr (final_content, w') =>
      match create_flashcards svc topic final_content
              (DifficultyLevel_value difficulty) quality_threshold
              max_iterations w' with
      | Raised => inl OtherError
      | Returned cards => inr cards
      end
  end.

End Content.

(** The sentence [_get_predefined_content] falls back on. *)
Definition placeholder (topic : string) : string :=
  "Please provide content about " +:+ topic +:+ " to generate flashcards.".

(** A content directory on which [ContentManager()] has just run for the
    first time. *)
Definition fresh_directory : gmap string string :=
  ContentManager._create_sample_files ∅.

(** An auto-generation that never answers and an encyclopedia without
    articles, for sample runs. *)
Definition no_generation : string -> string -> unit -> option string * unit :=
  fun _ _ w => (None, w).
Definition no_article : string -> option string := fun _ => None.

(** ** Configuration

    The environment is a finite map from variable names to values. *)

(** [not value] for the result of [os.getenv]: unset or empty. *)
Definition unset (value : option string) : bool :=
  match value with
  | Some text => String.eqb text ""
  | None => true
  end.

Module AzureConfig.

Record t : Type := Build {
  endpoint : option string;
  api_key : option string;
  deployment_name : string;
  api_version : string
}.

(** [AzureConfig()]: the constructor reads four variables and raises
    [ValueError] when the endpoint or the key is unset or empty. *)
Definition __init__ (environ : gmap string string) : exn + t :=
  let endpoint := environ !! "AZURE_OPENAI_ENDPOINT"%string in
  let api_key := environ !! "AZURE_OPENAI_API_KEY"%string in
  let deployment_name :=
    default "o4-mini"%string (environ !! "AZURE_OPENAI_CHAT_DEPLOYMENT_NAME"%string) in
  let api_version :=
    default "2024-12-01-preview"%string
            (environ !! "AZURE_OPENAI_API_VERSION"%string) in
  if unset endpoint || unset api_key then
    inl (ValueError "Azure OpenAI configuration missing. Set AZURE_OPENAI_ENDPOINT and AZURE_OPENAI_API_KEY environment variables.")
  else inr (Build endpoint api_key deployment_name api_version).

End AzureConfig.

(** [check_azure_configuration]: the value of [status] it returns. *)
Definition check_azure_configuration (environ : gmap string string) : bool :=
  let endpoint := environ !! "AZURE_OPENAI_ENDPOINT"%string in
  let api_key := environ !! "AZURE_OPENAI_API_KEY"%string in
  let status := true in
  let status := if unset endpoint then false else status in
  let status := if unset api_key then false else status in
  status.

(** ** Interactive input *)

Definition newline : string := String "010" EmptyString.

(** The [while True] loop of the DIRECT_INPUT branch of [get_user_input].
    [input()] takes the next line of [inputs]; when no line is left it
    raises [EOFError], which is [None].  At the [break] the loop hands
    back [lines] and the lines not read. *)
Fixpoint read_lines (inputs lines : list string) (empty_line_count : nat)
  : option (list string * list string) :=
  match inputs with
  | [] => None
  | line :: rest =>
      if String.eqb line "" then
        let empty_line_count := (empty_line_count + 1)%nat in
        if (2 <=? empty_line_count)%nat then Some (lines, rest)
        else read_lines rest (lines ++ [line]) empty_line_count
      else read_lines rest (lines ++ [line]) 0
  end.

(** [content] of the DIRECT_INPUT branch: ["\n".join(lines[:-1])]. *)
Definition pasted_content (inputs : list string) : option (string * list string) :=
  match read_lines inputs [] 0 with
  | Some (lines, rest) => Some (Text.join newline (removelast lines), rest)
  | None => None
  end.

(** No two empty lines in a row and no empty line at the end. *)
Fixpoint no_blank_pair (lines : list string) : bool :=
  match lines with
  | [] => true
  | line :: rest =>
      if String.eqb line "" then
        match rest with
        | [] => false
        | next :: _ => negb (String.eqb next "") && no_blank_pair rest
        end
      else no_blank_pair rest
  end.

(** ** The printed summary *)

(** [difficulty_counts] of [print_flashcards], which builds it when the
    list of cards is not empty. *)
Definition difficulty_counts (flashcards : list QAFlashcard) : gmap string nat :=
  fold_left
    (fun counts card =>
       <[difficulty card := (default 0%nat (counts !! difficulty card) + 1)%nat]> counts)
    flashcards ∅.

(** The number of cards of one difficulty. *)
Definition cards_of (level : string) (flashcards : list QAFlashcard) : nat :=
  length (filter (fun card => difficulty card = level) flashcards).

(** ** The weighted score under the compensated sum

    [weighted_quality] adds the terms with the plain loop of [sum].  From
    CPython 3.12 on the same expression adds them with the compensated
    loop: *)
Definition weighted_quality_compensated (quality_factors : gmap string Py.float)
  : Py.float :=
  Py.mul
    (Py.sum_compensated
       (map (fun fw => Py.mul (get quality_factors fw.1 (Py.of_int 0)) fw.2)
            weights))
    (Py.of_int 10).

(** Two cards whose weighted sums lie next to the middle between two
    neighbouring floats.  The factors are the floats that [json.loads]
    reads from [4.625929269271486e-17], [0.7], [6.93889390390723e-17],
    [6.938893903907226e-17] and [2.3111159332646827e-32]; the second card
    has [6.938893903907228e-17] for its practical value. *)
Module Near_tie.

Definition lower : gmap string Py.float :=
  list_to_map
    [ ("conceptual_atomicity"%string, S754_finite false 7505999378950827 (-107));
      ("requires_specific_answer"%string, Py.literal 7 10);
      ("technical_precision"%string, S754_finite false 5629499534213121 (-106));
      ("practical_value"%string, S754_finite false 5629499534213118 (-106));
      ("design_rationale"%string, S754_finite false 8444249301319679 (-158)) ].

Definition higher : gmap string Py.float :=
  <["practical_value"%string := S754_finite false 5629499534213120 (-106)]> lower.

End Near_tie.
(** * Properties of the loop *)

(** ** The record of calls *)

Lemma occurrences_app kind (l1 l2 : list call) :
  occurrences kind (l1 ++ l2) = (occurrences kind l1 + occurrences kind l2)%nat.
Proof. unfold occurrences. by rewrite List.filter_app, length_app. Qed.

Section LoopFacts.
Context {W : Type}.
Variable svc : service W.
Variables topic final_content difficulty : string.
Variable quality_threshold : Py.float.

(** Every pass starts with a generation call on the current feedback and
    adds at most one assessment and one refinement call. *)
Lemma body_calls iteration (st : state W) :
  exists more,
    step_calls (body svc topic final_content difficulty quality_threshold
                  iteration st)
      = calls st ++ Generate (feedback st) :: more
    /\ occurrences is_generate more = 0%nat
    /\ (occurrences is_assess more <= 1)%nat
    /\ (occurrences is_refine more <= 1)%nat.
Proof.
  unfold body.
  repeat case_match; simpl;
    (eexists; split; [rewrite <- ?app_assoc; simpl; reflexivity|]);
    cbn; auto with lia.
Qed.

Lemma body_counts iteration (st : state W) :
  let made :=
    step_calls (body svc topic final_content difficulty quality_threshold
                  iteration st) in
  occurrences is_generate made = S (occurrences is_generate (calls st))
  /\ (occurrences is_assess made <= S (occurrences is_assess (calls st)))%nat
  /\ (occurrences is_refine made <= S (occurrences is_refine (calls st)))%nat.
Proof.
  cbv zeta.
  destruct (body_calls iteration st) as (more & -> & Hg & Ha & Hr).
  rewrite !occurrences_app.
  change (Generate (feedback st) :: more) with ([Generate (feedback st)] ++ more).
  rewrite !occurrences_app. cbn. lia.
Qed.

(** Each kind of call is made at most once per remaining pass. *)
Lemma loop_counts remaining : forall iteration (st : state W),
  let made :=
    calls_of (loop svc topic final_content difficulty quality_threshold
                remaining iteration st) in
  (occurrences is_generate made
     <= occurrences is_generate (calls st) + remaining)%nat
  /\ (occurrences is_assess made
     <= occurrences is_assess (calls st) + remaining)%nat
  /\ (occurrences is_refine made
     <= occurrences is_refine (calls st) + remaining)%nat.
Proof.
  induction remaining as [|remaining IH]; intros iteration st; simpl.
  - lia.
  - pose proof (body_counts iteration st) as (Hg & Ha & Hr).
    cbv zeta in Hg, Ha, Hr.
    destruct (body _ _ _ _ _ iteration st) as [st'| why st'|made]; simpl in *.
    + specialize (IH (S iteration) st'). simpl in IH. lia.
    + lia.
    + lia.
Qed.

(** ** One pass, stage by stage *)

Variables (iteration : nat) (st : state W).
Variables (data : FlashcardData.t) (w1 : W).
Variables (assessment : Assessment.t) (w2 : W).
Hypothesis generated :
  generate_flashcards svc topic final_content difficulty (feedback st) (world st)
  = (Decoded data, w1).
Hypothesis some_cards : default [] (FlashcardData.flashcards data) <> [].
Hypothesis assessed :
  assess_flashcards svc data topic w1 = (Decoded assessment, w2).

(** Once the generation and the assessment have decoded, the rest of the
    pass depends on the quality test and on the refinement reply. *)
Lemma body_assessed :
  let at_test := assessed_state iteration st data assessment w2 in
  body svc topic final_content difficulty quality_threshold iteration st =
    if quality_reached quality_threshold assessment then
      Break QualityReached at_test
    else
      match refine_flashcards svc data assessment topic w2 with
      | (Raises, _) => Propagate (calls at_test ++ [Refine data assessment])
      | (Undecodable, w3) =>
          Break RefinementUndecodable
            (State (feedback st) (Some data) (overall_score at_test)
               (iteration_metrics at_test) w3
               (calls at_test ++ [Refine data assessment]))
      | (Decoded refined_data, w3) =>
          Continue
            (State
               (next_feedback
                  (default [] (Assessment.improvement_priorities assessment)))
               (Some refined_data) (overall_score at_test)
               (iteration_metrics at_test) w3
               (calls at_test ++ [Refine data assessment]))
      end.
Proof.
  cbv zeta. unfold body. rewrite generated.
  destruct (default [] (FlashcardData.flashcards data)) as [|c cs] eqn:E;
    [done|]. cbn [length Nat.eqb].
  rewrite assessed. unfold assessed_state.
  cbn [calls overall_score iteration_metrics].
  rewrite <- !app_assoc. reflexivity.
Qed.

Lemma body_quality_reached :
  (exists st',
     body svc topic final_content difficulty quality_threshold iteration st
     = Break QualityReached st')
  <-> quality_reached quality_threshold assessment = true.
Proof.
  rewrite body_assessed.
  destruct (quality_reached quality_threshold assessment).
  - split; eauto.
  - split; [|discriminate]. intros [st' H].
    destruct (refine_flashcards _ _ _ _ _) as [[| |r] w3]; discriminate.
Qed.

End LoopFacts.

(** ** The quality test *)

Lemma criteria_met_Forall (l : list (gmap string Py.float)) :
  criteria_met l = true <-> Forall (fun factors => below_floor factors = false) l.
Proof.
  induction l as [|factors l IH]; simpl.
  - split; auto.
  - destruct (below_floor factors) eqn:E.
    + split; [discriminate|]. intros H. inversion H; congruence.
    + rewrite IH. split; [by constructor|]. by inversion 1.
Qed.

Lemma criteria_met_failing before factors after :
  below_floor factors = true ->
  criteria_met (before ++ factors :: after) = false.
Proof.
  intros Hbelow. induction before as [|x before IH]; simpl.
  - by rewrite Hbelow.
  - by destruct (below_floor x).
Qed.

Lemma quality_reached_iff quality_threshold (assessment : Assessment.t) :
  quality_reached quality_threshold assessment = true <->
    Py.ge (default (Py.of_int 0) (Assessment.overall_score assessment))
          quality_threshold = true
    /\ Py.eq (default (Py.of_int 0) (Assessment.critical_issues assessment))
             (Py.of_int 0) = true
    /\ Forall (fun card_assessment : CardAssessment.t =>
                 below_floor
                   (default ∅ (CardAssessment.quality_factors card_assessment))
                 = false)
              (default [] (Assessment.assessments assessment)).
Proof.
  unfold quality_reached. rewrite !andb_true_iff, criteria_met_Forall.
  rewrite Forall_map. tauto.
Qed.

(** When no generation decodes, the loop runs out its budget and leaves
    the variables as they were. *)
Lemma loop_all_undecodable {W : Type} (svc : service W)
    (topic final_content difficulty : string) (quality_threshold : Py.float) :
  (forall fb w,
      (generate_flashcards svc topic final_content difficulty fb w).1 = Undecodable) ->
  forall remaining iteration (st : state W),
  exists st',
    loop svc topic final_content difficulty quality_threshold remaining iteration st
    = Exhausted st'
    /\ flashcard_data st' = flashcard_data st
    /\ occurrences is_generate (calls st')
       = (occurrences is_generate (calls st) + remaining)%nat
    /\ occurrences is_assess (calls st') = occurrences is_assess (calls st)
    /\ occurrences is_refine (calls st') = occurrences is_refine (calls st).
Proof.
  intros Hgen. induction remaining as [|remaining IH]; intros iteration st.
  - exists st. cbn. auto with lia.
  - cbn [loop]. unfold body. specialize (Hgen (feedback st) (world st)).
    destruct (generate_flashcards _ _ _ _ _ _) as [r w1]. cbn in Hgen. subst r.
    match goal with |- context [loop _ _ _ _ _ _ _ ?s] =>
      destruct (IH (S iteration) s) as (st' & -> & Hdata & Hg & Ha & Hr)
    end.
    exists st'. split; [reflexivity|].
    cbn [calls flashcard_data] in Hdata, Hg, Ha, Hr.
    rewrite occurrences_app in Hg, Ha, Hr. cbn in Hg, Ha, Hr.
    auto with lia.
Qed.

(** The order of two floats, read from the other side. *)
Lemma SFcompare_swap (x y : Py.float) :
  SFcompare y x = option_map CompOpp (SFcompare x y).
Proof.
  destruct x as [sx|sx| |sx mx ex], y as [sy|sy| |sy my ey];
    try reflexivity; try (by destruct sx); try (by destruct sy);
    try (by destruct sx, sy).
  cbn [SFcompare option_map]. f_equal.
  rewrite (Z.compare_antisym ex ey).
  change (Pos.compare_cont Eq my mx) with (my ?= mx)%positive.
  change (Pos.compare_cont Eq mx my) with (mx ?= my)%positive.
  rewrite (Pos.compare_antisym mx my).
  by destruct sx, sy, (ex ?= ey), (mx ?= my)%positive.
Qed.

(** A number at or above a minimum is not below it. *)
Lemma ge_not_lt (x y : Py.float) : Py.ge x y = true -> Py.lt x y = false.
Proof.
  unfold Py.ge, Py.lt, SFleb, SFltb. rewrite (SFcompare_swap x y).
  by destruct (SFcompare x y) as [[| |]|].
Qed.

(** The floor check, comparison by comparison. *)
Lemma below_floor_false_iff (factors : gmap string Py.float) :
  below_floor factors = false
  <-> Py.lt (get factors "conceptual_atomicity" (Py.of_int 0)) (Py.literal 9 10)
      = false
      /\ Py.lt (get factors "conciseness" (Py.of_int 0)) (Py.literal 8 10) = false
      /\ Py.lt (get factors "standalone_context" (Py.of_int 0)) (Py.literal 9 10)
         = false
      /\ Py.lt (get factors "no_hints" (Py.of_int 0)) (Py.literal 9 10) = false.
Proof.
  unfold below_floor.
  change min_atomicity with (Py.literal 9 10).
  change min_conciseness with (Py.literal 8 10).
  change min_standalone with (Py.literal 9 10).
  change min_no_hints with (Py.literal 9 10).
  rewrite !orb_false_iff. tauto.
Qed.

(** * Main results: the loop *)

(** C1.  In a pass whose generation decodes to a non-empty card list and
    whose assessment decodes, the loop is left through the quality [break]
    exactly when the overall score reaches the threshold, there is no
    critical issue, and no assessed card has one of its four critical
    factors below its floor: conceptual atomicity 0.9, conciseness 0.8,
    standalone context 0.9, absence of hints 0.9, a missing factor
    counting as 0.  In particular the [break] is taken when the first two
    hold and every assessed card is at or above the four floors.  When
    the criteria hold in the first pass, the run ends there: one
    generation call, one assessment call, no refinement call. *)
Theorem convergence_criterion {W : Type} (svc : service W)
    (topic final_content difficulty : string) (quality_threshold : Py.float)
    (iteration : nat) (st : state W)
    (data : FlashcardData.t) (w1 : W) (assessment : Assessment.t) (w2 : W) :
  generate_flashcards svc topic final_content difficulty (feedback st) (world st)
    = (Decoded data, w1) ->
  default [] (FlashcardData.flashcards data) <> [] ->
  assess_flashcards svc data topic w1 = (Decoded assessment, w2) ->
  let factor (card_assessment : CardAssessment.t) (key : string) : Py.float :=
    match CardAssessment.quality_factors card_assessment with
    | Some factors =>
        match factors !! key with
        | Some score => score
        | None => Py.of_int 0
        end
    | None => Py.of_int 0
    end in
  let score_and_issues :=
    Py.ge (default (Py.of_int 0) (Assessment.overall_score assessment))
          quality_threshold = true
    /\ Py.eq (default (Py.of_int 0) (Assessment.critical_issues assessment))
             (Py.of_int 0) = true in
  let criteria :=
    score_and_issues
    /\ Forall (fun card_assessment : CardAssessment.t =>
                 Py.lt (factor card_assessment "conceptual_atomicity")
                       (Py.literal 9 10) = false
                 /\ Py.lt (factor card_assessment "conciseness")
                          (Py.literal 8 10) = false
                 /\ Py.lt (factor card_assessment "standalone_context")
                          (Py.literal 9 10) = false
                 /\ Py.lt (factor card_assessment "no_hints")
                          (Py.literal 9 10) = false)
              (default [] (Assessment.assessments assessment)) in
  ((exists st',
      body svc topic final_content difficulty quality_threshold iteration st
      = Break QualityReached st')
   <-> criteria)
  /\ (score_and_issues ->
      Forall (fun card_assessment : CardAssessment.t =>
                Py.ge (factor card_assessment "conceptual_atomicity")
                      (Py.literal 9 10) = true
                /\ Py.ge (factor card_assessment "conciseness")
                         (Py.literal 8 10) = true
                /\ Py.ge (factor card_assessment "standalone_context")
                         (Py.literal 9 10) = true
                /\ Py.ge (factor card_assessment "no_hints")
                         (Py.literal 9 10) = true)
             (default [] (Assessment.assessments assessment)) ->
      exists st',
        body svc topic final_content difficulty quality_threshold iteration st
        = Break QualityReached st')
  /\ (criteria ->
      forall max_iterations : Z,
        1 <= max_iterations ->
        st = initial_state (world st) ->
        exists st',
          run svc topic final_content difficulty quality_threshold
            max_iterations (world st)
          = Broke QualityReached st'
          /\ calls st' = [Generate initial_feedback; Assess data]
          /\ occurrences is_generate (calls st') = 1%nat
          /\ occurrences is_refine (calls st') = 0%nat).
Proof.
  intros Hgen Hne Hassess factor score_and_issues criteria.
  assert (forall card_assessment key,
            factor card_assessment key
            = get (default ∅ (CardAssessment.quality_factors card_assessment))
                  key (Py.of_int 0)) as Hfactor.
  { intros card_assessment key. unfold factor, get.
    destruct (CardAssessment.quality_factors card_assessment) as [factors|];
      [reflexivity|].
    cbn [default]. by rewrite lookup_empty. }
  assert (criteria <-> quality_reached quality_threshold assessment = true)
    as Hcriteria.
  { rewrite quality_reached_iff. subst criteria score_and_issues.
    cbv zeta.
    assert (forall P Q R R' : Prop, (R <-> R') -> ((P /\ Q) /\ R <-> P /\ Q /\ R'))
      as Hprop by tauto.
    apply Hprop. apply Forall_iff. intros card_assessment.
    rewrite below_floor_false_iff, !Hfactor. reflexivity. }
  assert ((exists st',
             body svc topic final_content difficulty quality_threshold iteration st
             = Break QualityReached st')
          <-> criteria) as Hbreak.
  { rewrite Hcriteria. by apply body_quality_reached with data w1 w2. }
  split; [exact Hbreak|]. split.
  - intros Hscore Hfloors. apply Hbreak. split; [exact Hscore|].
    eapply Forall_impl; [exact Hfloors|].
    intros card_assessment (H1 & H2 & H3 & H4).
    by repeat split; apply ge_not_lt.
  - intros Hq%Hcriteria max_iterations Hmax Hinit.
    unfold run.
    destruct (Z.to_nat max_iterations) as [|remaining] eqn:E; [lia|].
    rewrite <- Hinit. cbn [loop].
    rewrite (body_assessed svc topic final_content difficulty quality_threshold
               O st data w1 assessment w2 Hgen Hne Hassess), Hq.
    eexists. split; [reflexivity|].
    rewrite Hinit. cbn. auto.
Qed.

Lemma convergence_criterion_witness :
  exists st',
    run Scripted.svc Run.topic Run.content Run.level Sample.eight 3 Run.converging
    = Broke QualityReached st'
    /\ calls st' = [Generate initial_feedback; Assess Sample.deck]
    /\ occurrences is_generate (calls st') = 1%nat
    /\ occurrences is_refine (calls st') = 0%nat.
Proof.
  refine (proj2 (proj2 (convergence_criterion Scripted.svc Run.topic Run.content
            Run.level Sample.eight 0 (initial_state Run.converging)
            Sample.deck _ Sample.good _ _ _ _)) _ 3 _ _).
  - reflexivity.
  - discriminate.
  - reflexivity.
  - split; [split; vm_compute; reflexivity|].
    repeat (constructor; [repeat split; vm_compute; reflexivity|]). constructor.
  - lia.
  - reflexivity.
Defined.

(** C2.  Whatever [max_iterations] is, a run makes at most
    [max_iterations] generation calls, and so at most that many assessment
    and refinement calls, before materialization. *)
Theorem iterations_bounded {W : Type} (svc : service W)
    (topic final_content difficulty : string) (quality_threshold : Py.float)
    (max_iterations : Z) (w : W) :
  let made :=
    calls_of (run svc topic final_content difficulty quality_threshold
                max_iterations w) in
  Z.of_nat (occurrences is_generate made) <= Z.max 0 max_iterations
  /\ Z.of_nat (occurrences is_assess made) <= Z.max 0 max_iterations
  /\ Z.of_nat (occurrences is_refine made) <= Z.max 0 max_iterations.
Proof.
  intros made. subst made. unfold run.
  pose proof (loop_counts svc topic final_content difficulty quality_threshold
                (Z.to_nat max_iterations) 0 (initial_state w)) as (Hg & Ha & Hr).
  cbn in Hg, Ha, Hr. lia.
Qed.

(** C5.  A generation reply that does not decode, or that decodes to an
    empty card list, ends the pass with [continue]: nothing is raised, the
    generation call is the only call of the pass, the pass is used up, and
    the next pass calls the generation with the same feedback. *)
Theorem wasted_iteration {W : Type} (svc : service W)
    (topic final_content difficulty : string) (quality_threshold : Py.float)
    (iteration : nat) (st : state W) (r : reply FlashcardData.t) (w1 : W) :
  generate_flashcards svc topic final_content difficulty (feedback st) (world st)
    = (r, w1) ->
  r = Undecodable
  \/ (exists data,
        r = Decoded data /\ default [] (FlashcardData.flashcards data) = []) ->
  exists st',
    body svc topic final_content difficulty quality_threshold iteration st
      = Continue st'
    /\ feedback st' = feedback st
    /\ calls st' = calls st ++ [Generate (feedback st)]
    /\ (forall remaining,
          loop svc topic final_content difficulty quality_threshold
            (S remaining) iteration st
          = loop svc topic final_content difficulty quality_threshold
              remaining (S iteration) st')
    /\ (exists more,
          step_calls
            (body svc topic final_content difficulty quality_threshold
               (S iteration) st')
          = calls st ++ Generate (feedback st) :: Generate (feedback st) :: more).
Proof.
  intros Hgen Hr.
  assert (exists st',
    body svc topic final_content difficulty quality_threshold iteration st
      = Continue st'
    /\ feedback st' = feedback st
    /\ calls st' = calls st ++ [Generate (feedback st)]) as (st' & Hbody & Hfb & Hcalls).
  { unfold body. rewrite Hgen.
    destruct Hr as [->|(data & -> & Hempty)].
    - eexists. split; [reflexivity|]. auto.
    - rewrite Hempty. cbn [length Nat.eqb]. eexists. split; [reflexivity|]. auto. }
  exists st'. repeat split; try assumption.
  - intros remaining. cbn [loop]. by rewrite Hbody.
  - destruct (body_calls svc topic final_content difficulty quality_threshold
                (S iteration) st') as (more & -> & _).
    exists more. rewrite Hfb, Hcalls, <- app_assoc. reflexivity.
Qed.

Lemma wasted_iteration_witness :
  exists st',
    body Scripted.svc Run.topic Run.content Run.level Sample.eight 0 Run.wasteful
      = Continue st'
    /\ feedback st' = initial_feedback
    /\ calls st' = [Generate initial_feedback]
    /\ (forall remaining,
          loop Scripted.svc Run.topic Run.content Run.level Sample.eight
            (S remaining) 0 Run.wasteful
          = loop Scripted.svc Run.topic Run.content Run.level Sample.eight
              remaining 1 st')
    /\ (exists more,
          step_calls
            (body Scripted.svc Run.topic Run.content Run.level Sample.eight 1 st')
          = Generate initial_feedback :: Generate initial_feedback :: more).
Proof.
  apply (wasted_iteration Scripted.svc Run.topic Run.content Run.level
           Sample.eight 0 Run.wasteful (Decoded Sample.empty_deck)
           (Scripted.Script [Undecodable] [] [])).
  - reflexivity.
  - right. exists Sample.empty_deck. split; reflexivity.
Defined.

(** C6.  A refinement reply that does not decode leaves the loop at once,
    whatever budget remains; [flashcard_data] still is the document the
    refinement was asked to improve, and the cards are built from it
    instead of an exception being raised. *)
Theorem refinement_failure_ends_loop {W : Type} (svc : service W)
    (topic final_content difficulty : string) (quality_threshold : Py.float)
    (iteration : nat) (st : state W)
    (data : FlashcardData.t) (w1 : W) (assessment : Assessment.t) (w2 w3 : W) :
  generate_flashcards svc topic final_content difficulty (feedback st) (world st)
    = (Decoded data, w1) ->
  default [] (FlashcardData.flashcards data) <> [] ->
  assess_flashcards svc data topic w1 = (Decoded assessment, w2) ->
  quality_reached quality_threshold assessment = false ->
  refine_flashcards svc data assessment topic w2 = (Undecodable, w3) ->
  forall remaining,
  exists st',
    loop svc topic final_content difficulty quality_threshold
      (S remaining) iteration st
      = Broke RefinementUndecodable st'
    /\ flashcard_data st' = Some data
    /\ calls st' = calls st ++ [Generate (feedback st); Assess data;
                                Refine data assessment]
    /\ finish topic difficulty
         (loop svc topic final_content difficulty quality_threshold
            (S remaining) iteration st)
       = Returned
           (imap (make_flashcard topic difficulty
                    (default (Py.of_int 0) (Assessment.overall_score assessment)))
                 (default [] (FlashcardData.flashcards data))).
Proof.
  intros Hgen Hne Hassess Hq Hrefine remaining.
  cbn [loop].
  rewrite (body_assessed svc topic final_content difficulty quality_threshold
             iteration st data w1 assessment w2 Hgen Hne Hassess), Hq, Hrefine.
  eexists. split; [reflexivity|]. cbn.
  rewrite <- app_assoc. auto.
Qed.

Lemma refinement_failure_ends_loop_witness :
  exists st',
    loop Scripted.svc Run.topic Run.content Run.level Sample.eight 3 0
      Run.failing_refinement
      = Broke RefinementUndecodable st'
    /\ flashcard_data st' = Some Sample.deck
    /\ calls st' = [Generate initial_feedback; Assess Sample.deck;
                    Refine Sample.deck Sample.poor]
    /\ finish Run.topic Run.level
         (loop Scripted.svc Run.topic Run.content Run.level Sample.eight 3 0
            Run.failing_refinement)
       = Returned
           (imap (make_flashcard Run.topic Run.level (Py.of_int 6))
                 (default [] (FlashcardData.flashcards Sample.deck))).
Proof.
  eapply (refinement_failure_ends_loop Scripted.svc Run.topic Run.content
            Run.level Sample.eight 0 Run.failing_refinement
            Sample.deck _ Sample.poor _ _).
  - reflexivity.
  - discriminate.
  - reflexivity.
  - vm_compute. reflexivity.
  - reflexivity.
Defined.

(** C8, as the code has it.  After a refinement reply that decodes, the
    refined document replaces [flashcard_data], and the feedback of the
    next generation call is the text [Focus on: ] followed by the first
    two improvement priorities joined by [; ] when the assessment lists
    any, and the fixed fallback text when the list is empty or missing. *)
Theorem refinement_success_updates {W : Type} (svc : service W)
    (topic final_content difficulty : string) (quality_threshold : Py.float)
    (iteration : nat) (st : state W)
    (data : FlashcardData.t) (w1 : W) (assessment : Assessment.t) (w2 : W)
    (refined_data : FlashcardData.t) (w3 : W) :
  generate_flashcards svc topic final_content difficulty (feedback st) (world st)
    = (Decoded data, w1) ->
  default [] (FlashcardData.flashcards data) <> [] ->
  assess_flashcards svc data topic w1 = (Decoded assessment, w2) ->
  quality_reached quality_threshold assessment = false ->
  refine_flashcards svc data assessment topic w2 = (Decoded refined_data, w3) ->
  exists st',
    body svc topic final_content difficulty quality_threshold iteration st
      = Continue st'
    /\ flashcard_data st' = Some refined_data
    /\ feedback st' =
         match default [] (Assessment.improvement_priorities assessment) with
         | [] => fallback_feedback
         | priorities => "Focus on: " +:+ Text.join "; " (take 2 priorities)
         end
    /\ (exists more,
          step_calls
            (body svc topic final_content difficulty quality_threshold
               (S iteration) st')
          = calls st' ++ Generate (feedback st') :: more).
Proof.
  intros Hgen Hne Hassess Hq Hrefine.
  rewrite (body_assessed svc topic final_content difficulty quality_threshold
             iteration st data w1 assessment w2 Hgen Hne Hassess), Hq, Hrefine.
  eexists. split; [reflexivity|]. cbn [flashcard_data feedback].
  split; [reflexivity|]. split.
  - unfold next_feedback.
    by destruct (default [] (Assessment.improvement_priorities assessment)).
  - match goal with |- context [body _ _ _ _ _ _ ?s] =>
      destruct (body_calls svc topic final_content difficulty quality_threshold
                  (S iteration) s) as (more & Hmore & _)
    end.
    eauto.
Qed.

Lemma refinement_success_updates_witness :
  exists st',
    body Scripted.svc Run.topic Run.content Run.level Sample.eight 0 Run.refining
      = Continue st'
    /\ flashcard_data st' = Some Sample.refined_deck
    /\ feedback st' = "Focus on: shorten answers; add context"%string
    /\ (exists more,
          step_calls
            (body Scripted.svc Run.topic Run.content Run.level Sample.eight 1 st')
          = calls st' ++ Generate (feedback st') :: more).
Proof.
  eapply (refinement_success_updates Scripted.svc Run.topic Run.content
            Run.level Sample.eight 0 Run.refining
            Sample.deck _ Sample.poor _ Sample.refined_deck _).
  - reflexivity.
  - discriminate.
  - reflexivity.
  - vm_compute. reflexivity.
  - reflexivity.
Defined.

(** C8 as stated fails: with the priorities [shorten answers], [add context]
    and [split compound cards], the refinement decodes and the next
    feedback is not the bare join of the first two. *)
Lemma feedback_is_not_the_bare_join :
  exists st',
    body Scripted.svc Run.topic Run.content Run.level Sample.eight 0 Run.refining
      = Continue st'
    /\ flashcard_data st' = Some Sample.refined_deck
    /\ Assessment.improvement_priorities Sample.poor
       = Some ["shorten answers"; "add context"; "split compound cards"]%string
    /\ Text.join "; "
         (take 2 (default [] (Assessment.improvement_priorities Sample.poor)))
       = "shorten answers; add context"%string
    /\ feedback st' = "Focus on: shorten answers; add context"%string
    /\ feedback st'
       <> Text.join "; "
            (take 2 (default [] (Assessment.improvement_priorities Sample.poor))).
Proof.
  assert (quality_reached Sample.eight Sample.poor = false) as Hq
    by (vm_compute; reflexivity).
  assert (default [] (FlashcardData.flashcards Sample.deck) <> []) as Hne
    by discriminate.
  rewrite (body_assessed Scripted.svc Run.topic Run.content Run.level
             Sample.eight 0 Run.refining Sample.deck _ Sample.poor _
             eq_refl Hne eq_refl), Hq.
  eexists. split; [reflexivity|]. cbn [flashcard_data feedback].
  repeat split; discriminate.
Qed.

(** C9.  When the content is not blank and no generation reply decodes,
    [create_flashcards] returns the empty list; nothing is raised. *)
Theorem undecodable_generations_yield_no_cards {W : Type} (svc : service W)
    (topic final_content difficulty : string) (quality_threshold : Py.float)
    (max_iterations : Z) (w : W) :
  Text.blank final_content = false ->
  (forall fb w',
      (generate_flashcards svc topic final_content difficulty fb w').1 = Undecodable) ->
  create_flashcards svc topic final_content difficulty quality_threshold
    max_iterations w
  = Returned [].
Proof.
  intros Hcontent Hgen. unfold create_flashcards, run. rewrite Hcontent.
  destruct (loop_all_undecodable svc topic final_content difficulty
              quality_threshold Hgen (Z.to_nat max_iterations) 0 (initial_state w))
    as (st' & -> & Hdata & _).
  cbn. by rewrite Hdata.
Qed.

Lemma undecodable_generations_yield_no_cards_witness :
  create_flashcards garbled Run.topic Run.content Run.level Sample.eight 3 tt
  = Returned [].
Proof.
  apply (undecodable_generations_yield_no_cards garbled Run.topic Run.content
           Run.level Sample.eight 3 tt).
  - reflexivity.
  - intros fb w'. reflexivity.
Defined.

(** C10.  When the assessment decodes with an empty (or missing) list of
    per-card entries, no factor is compared with a floor: the quality
    [break] is taken exactly when the overall score reaches the threshold
    and there is no critical issue. *)
Theorem no_card_assessments_pass_vacuously {W : Type} (svc : service W)
    (topic final_content difficulty : string) (quality_threshold : Py.float)
    (iteration : nat) (st : state W)
    (data : FlashcardData.t) (w1 : W) (assessment : Assessment.t) (w2 : W) :
  generate_flashcards svc topic final_content difficulty (feedback st) (world st)
    = (Decoded data, w1) ->
  default [] (FlashcardData.flashcards data) <> [] ->
  assess_flashcards svc data topic w1 = (Decoded assessment, w2) ->
  default [] (Assessment.assessments assessment) = [] ->
  (exists st',
     body svc topic final_content difficulty quality_threshold iteration st
     = Break QualityReached st')
  <-> Py.ge (default (Py.of_int 0) (Assessment.overall_score assessment))
            quality_threshold = true
      /\ Py.eq (default (Py.of_int 0) (Assessment.critical_issues assessment))
               (Py.of_int 0) = true.
Proof.
  intros Hgen Hne Hassess Hempty.
  rewrite (body_quality_reached svc topic final_content difficulty
             quality_threshold iteration st data w1 assessment w2 Hgen Hne Hassess).
  rewrite quality_reached_iff, Hempty. intuition.
Qed.

Lemma no_card_assessments_pass_vacuously_witness :
  (exists st',
     body Scripted.svc Run.topic Run.content Run.level Sample.eight 0
       Run.unassessed_cards
     = Break QualityReached st')
  <-> Py.ge Sample.nine Sample.eight = true
      /\ Py.eq (Py.of_int 0) (Py.of_int 0) = true.
Proof.
  eapply (no_card_assessments_pass_vacuously Scripted.svc Run.topic Run.content
            Run.level Sample.eight 0 Run.unassessed_cards
            Sample.deck _ Sample.bare _).
  - reflexivity.
  - discriminate.
  - reflexivity.
  - reflexivity.
Defined.

(** * Main results: the cards *)

(** C4.  A card fails the floor check as soon as one of the four critical
    factors is missing from its factors or lies below its minimum (0.9 for
    conceptual atomicity, standalone context and absence of hints, 0.8 for
    conciseness), whatever the other factors are; the criteria are then
    not met, wherever the card stands among the assessed cards. *)
Theorem below_any_floor_fails (factors : gmap string Py.float)
    (before after : list (gmap string Py.float)) :
  fails_floor factors "conceptual_atomicity" (Py.literal 9 10)
  \/ fails_floor factors "conciseness" (Py.literal 8 10)
  \/ fails_floor factors "standalone_context" (Py.literal 9 10)
  \/ fails_floor factors "no_hints" (Py.literal 9 10) ->
  below_floor factors = true
  /\ criteria_met [factors] = false
  /\ criteria_met (before ++ factors :: after) = false.
Proof.
  intros H.
  assert (below_floor factors = true) as Hbelow.
  { unfold below_floor, get, fails_floor in *.
    change min_atomicity with (Py.literal 9 10).
    change min_conciseness with (Py.literal 8 10).
    change min_standalone with (Py.literal 9 10).
    change min_no_hints with (Py.literal 9 10).
    rewrite !orb_true_iff.
    destruct H as [H|[H|[H|H]]];
      [left; left; left|left; left; right|left; right|right];
      (destruct (factors !! _); [exact H|vm_compute; reflexivity]). }
  split; [exact Hbelow|]. split.
  - apply (criteria_met_failing [] factors []), Hbelow.
  - apply criteria_met_failing, Hbelow.
Qed.

Lemma below_any_floor_fails_witness :
  below_floor Sample.weak_atomicity = true
  /\ criteria_met [Sample.weak_atomicity] = false
  /\ criteria_met
       ([Sample.uniform Sample.one] ++ Sample.weak_atomicity :: [Sample.uniform Sample.one])
     = false.
Proof.
  apply (below_any_floor_fails Sample.weak_atomicity
           [Sample.uniform Sample.one] [Sample.uniform Sample.one]).
  left. vm_compute. reflexivity.
Defined.



(** * Binary64 rounding is monotone *)

Module RoundFacts.
Import Round.

Local Open Scope Z_scope.

(** ** Bit lengths *)

Lemma digits2_pos_bounds (m : positive) :
  2 ^ (Zpos (digits2_pos m) - 1) <= Zpos m < 2 ^ Zpos (digits2_pos m).
Proof.
  induction m as [m IH|m IH|]; cbn [digits2_pos].
  - rewrite Pos2Z.inj_succ.
    replace (Z.succ (Zpos (digits2_pos m)) - 1) with (Z.succ (Zpos (digits2_pos m) - 1)) by lia.
    rewrite !Z.pow_succ_r by lia. lia.
  - rewrite Pos2Z.inj_succ.
    replace (Z.succ (Zpos (digits2_pos m)) - 1) with (Z.succ (Zpos (digits2_pos m) - 1)) by lia.
    rewrite !Z.pow_succ_r by lia. lia.
  - cbn. lia.
Qed.

Lemma Zdigits2_bounds (m : Z) :
  0 < m -> 2 ^ (Zdigits2 m - 1) <= m < 2 ^ Zdigits2 m.
Proof. destruct m as [|p|p]; try lia. intros _. apply digits2_pos_bounds. Qed.

Lemma Zdigits2_pos (m : Z) : 0 < m -> 0 < Zdigits2 m.
Proof. destruct m; cbn; lia. Qed.

(** [d] is the bit length of [m] as soon as [2^(d-1) <= m < 2^d]. *)
Lemma Zdigits2_unique (m d : Z) :
  0 < m -> 2 ^ (d - 1) <= m < 2 ^ d -> Zdigits2 m = d.
Proof.
  intros Hm [Hlo Hhi].
  pose proof (Zdigits2_bounds m Hm) as [Hlo' Hhi'].
  pose proof (Zdigits2_pos m Hm).
  assert (0 < d).
  { destruct (Z.lt_ge_cases 0 d); [done|].
    assert (2 ^ d <= 1); [|lia].
    destruct (Z.eq_dec d 0) as [->|]; [cbn; lia|rewrite Z.pow_neg_r; lia]. }
  destruct (Z.lt_trichotomy (Zdigits2 m) d) as [Hlt|[->|Hgt]]; [|done|].
  - assert (2 ^ Zdigits2 m <= 2 ^ (d - 1)) by (apply Z.pow_le_mono_r; lia). lia.
  - assert (2 ^ d <= 2 ^ (Zdigits2 m - 1)) by (apply Z.pow_le_mono_r; lia). lia.
Qed.

Lemma Zdigits2_mono (m1 m2 : Z) :
  0 < m1 <= m2 -> Zdigits2 m1 <= Zdigits2 m2.
Proof.
  intros [H1 H12].
  pose proof (Zdigits2_bounds m1 H1) as [Hlo1 _].
  pose proof (Zdigits2_bounds m2 ltac:(lia)) as [_ Hhi2].
  destruct (Z.le_gt_cases (Zdigits2 m1) (Zdigits2 m2)) as [|Hgt]; [done|].
  assert (2 ^ Zdigits2 m2 <= 2 ^ (Zdigits2 m1 - 1)) by (apply Z.pow_le_mono_r; lia).
  lia.
Qed.

Lemma Zdigits2_shift (m k : Z) :
  0 < m -> 0 <= k -> Zdigits2 (m * 2 ^ k) = Zdigits2 m + k.
Proof.
  intros Hm Hk.
  pose proof (Zdigits2_bounds m Hm) as [Hlo Hhi].
  pose proof (Zdigits2_pos m Hm).
  assert (0 < 2 ^ k) by (apply Z.pow_pos_nonneg; lia).
  apply Zdigits2_unique; [lia|].
  replace (Zdigits2 m + k - 1) with ((Zdigits2 m - 1) + k) by lia.
  rewrite !Z.pow_add_r by lia. nia.
Qed.

Lemma fexp_mono (k1 k2 : Z) : k1 <= k2 -> fexp k1 <= fexp k2.
Proof. unfold fexp, SpecFloat.fexp. lia. Qed.

(** ** Shifting right, one bit at a time *)

Lemma iter_pos_nat {A : Type} (f : A -> A) (n : positive) (x : A) :
  SpecFloat.iter_pos f n x = Nat.iter (Pos.to_nat n) f x.
Proof.
  revert x. induction n as [n IH|n IH|]; intros x; cbn [SpecFloat.iter_pos].
  - rewrite !IH, Pos2Nat.inj_xI.
    replace (S (2 * Pos.to_nat n)) with (Pos.to_nat n + S (Pos.to_nat n))%nat by lia.
    rewrite Nat.iter_add, Nat.iter_succ_r. reflexivity.
  - rewrite !IH, Pos2Nat.inj_xO.
    replace (2 * Pos.to_nat n)%nat with (Pos.to_nat n + Pos.to_nat n)%nat by lia.
    rewrite Nat.iter_add. reflexivity.
  - reflexivity.
Qed.

Lemma shr_1_nonneg (m : Z) (r s : bool) :
  0 <= m ->
  shr_1 (Build_shr_record m r s) = Build_shr_record (m / 2) (Z.odd m) (r || s).
Proof.
  intros Hm. rewrite <- Z.div2_div.
  destruct m as [|[p|p|]|p]; try lia; reflexivity.
Qed.

Lemma mod_pow2_succ (m j : Z) :
  0 <= j ->
  m mod 2 ^ (j + 1) = m mod 2 ^ j + 2 ^ j * (if Z.odd (m / 2 ^ j) then 1 else 0).
Proof.
  intros Hj. rewrite Z.pow_add_r, Z.pow_1_r by lia.
  assert (0 < 2 ^ j) by (apply Z.pow_pos_nonneg; lia).
  rewrite Z.rem_mul_r by lia. by rewrite Zmod_odd.
Qed.

(** After [j + 1] shifts: the quotient, the last bit shifted out, and
    whether a lower bit was set. *)
Lemma shr_iter (m : Z) (j : nat) :
  0 <= m ->
  Nat.iter (S j) shr_1 (Build_shr_record m false false)
  = Build_shr_record (m / 2 ^ Z.of_nat (S j))
      (Z.odd (m / 2 ^ Z.of_nat j))
      (negb (m mod 2 ^ Z.of_nat j =? 0)).
Proof.
  intros Hm. induction j as [|j IH].
  - cbn [Nat.iter]. rewrite shr_1_nonneg by done.
    change (2 ^ Z.of_nat 1) with 2. change (2 ^ Z.of_nat 0) with 1.
    by rewrite Z.div_1_r, Z.mod_1_r.
  - rewrite Nat.iter_succ, IH.
    assert (0 < 2 ^ Z.of_nat j) by (apply Z.pow_pos_nonneg; lia).
    assert (0 < 2 ^ Z.of_nat (S j)) by (apply Z.pow_pos_nonneg; lia).
    rewrite shr_1_nonneg by (apply Z.div_pos; lia).
    f_equal.
    + rewrite Z.div_div by lia.
      replace (Z.of_nat (S (S j))) with (Z.of_nat (S j) + 1) by lia.
      by rewrite Z.pow_add_r, Z.pow_1_r by lia.
    + replace (Z.of_nat (S j)) with (Z.of_nat j + 1) by lia.
      rewrite mod_pow2_succ by lia.
      pose proof (Z.mod_pos_bound m (2 ^ Z.of_nat j) ltac:(lia)).
      destruct (Z.odd (m / 2 ^ Z.of_nat j));
        destruct (Z.eqb_spec (m mod 2 ^ Z.of_nat j) 0); cbn [orb negb];
        symmetry; rewrite ?negb_true_iff, ?negb_false_iff;
        try (apply Z.eqb_eq; lia); try (apply Z.eqb_neq; lia).
Qed.

(** The shifted and rounded mantissa is the quotient rounded to nearest,
    ties to even. *)
Lemma round_shr (m : Z) (j : positive) :
  0 <= m ->
  let mrs := SpecFloat.iter_pos shr_1 j (Build_shr_record m false false) in
  round_nearest_even (shr_m mrs) (loc_of_shr_record mrs)
  = nearest_even m (Zpos j).
Proof.
  intros Hm mrs. subst mrs. rewrite iter_pos_nat.
  destruct (Pos2Nat.is_succ j) as [k Hk]. rewrite Hk, shr_iter by done.
  assert (Zpos j = Z.of_nat k + 1) as -> by lia.
  unfold nearest_even. rewrite mod_pow2_succ by lia.
  replace (Z.of_nat (S k)) with (Z.of_nat k + 1) by lia.
  rewrite Z.pow_add_r, Z.pow_1_r by lia.
  assert (0 < 2 ^ Z.of_nat k) by (apply Z.pow_pos_nonneg; lia).
  pose proof (Z.mod_pos_bound m (2 ^ Z.of_nat k) ltac:(lia)).
  cbn [shr_m loc_of_shr_record].
  destruct (Z.odd (m / 2 ^ Z.of_nat k));
    destruct (Z.eqb_spec (m mod 2 ^ Z.of_nat k) 0); cbn [negb round_nearest_even];
    repeat match goal with
           | |- context [?a <? ?b] => destruct (Z.ltb_spec a b); try lia
           end; reflexivity.
Qed.

Lemma nearest_even_0 (m : Z) : nearest_even m 0 = m.
Proof.
  unfold nearest_even. change (2 ^ 0) with 1.
  by rewrite Z.div_1_r, Z.mod_1_r.
Qed.

(** Rounding is monotone in the mantissa. *)
Lemma nearest_even_mono (m1 m2 j : Z) :
  0 <= j -> m1 <= m2 -> nearest_even m1 j <= nearest_even m2 j.
Proof.
  intros Hj H12. unfold nearest_even.
  assert (0 < 2 ^ j) as Hp by (apply Z.pow_pos_nonneg; lia).
  pose proof (Z.div_mod m1 (2 ^ j) ltac:(lia)) as E1.
  pose proof (Z.div_mod m2 (2 ^ j) ltac:(lia)) as E2.
  pose proof (Z.mod_pos_bound m1 (2 ^ j) Hp) as B1.
  pose proof (Z.mod_pos_bound m2 (2 ^ j) Hp) as B2.
  pose proof (Z.div_le_mono m1 m2 (2 ^ j) Hp H12) as Hq.
  set (q1 := m1 / 2 ^ j) in *. set (q2 := m2 / 2 ^ j) in *.
  set (r1 := m1 mod 2 ^ j) in *. set (r2 := m2 mod 2 ^ j) in *.
  assert (q1 < q2 \/ (q1 = q2 /\ r1 <= r2)) as [Hlt|[Heq Hr]] by nia.
  - repeat match goal with
           | |- context [?a <? ?b] => destruct (Z.ltb_spec a b)
           | |- context [Z.even ?a] => destruct (Z.even a)
           end; lia.
  - rewrite Heq.
    repeat match goal with
           | |- context [?a <? ?b] => destruct (Z.ltb_spec a b)
           | |- context [Z.even ?a] => destruct (Z.even a)
           end; lia.
Qed.

Lemma nearest_even_bounds (m j : Z) :
  0 <= j -> 0 <= m -> m / 2 ^ j <= nearest_even m j <= m / 2 ^ j + 1.
Proof.
  intros Hj Hm. unfold nearest_even.
  repeat match goal with
         | |- context [?a <? ?b] => destruct (Z.ltb_spec a b)
         | |- context [Z.even ?a] => destruct (Z.even a)
         end; lia.
Qed.

(** Rounding does not see a shift of the mantissa that the exponent
    makes up for. *)
Lemma nearest_even_shift (m j k : Z) :
  0 <= j -> 0 <= k -> nearest_even (m * 2 ^ k) (j + k) = nearest_even m j.
Proof.
  intros Hj Hk. unfold nearest_even.
  assert (0 < 2 ^ j) by (apply Z.pow_pos_nonneg; lia).
  assert (0 < 2 ^ k) by (apply Z.pow_pos_nonneg; lia).
  rewrite Z.pow_add_r by lia.
  rewrite Z.div_mul_cancel_r by lia.
  rewrite Zmult_mod_distr_r.
  set (q := m / 2 ^ j). set (r := m mod 2 ^ j).
  repeat match goal with
         | |- context [?a <? ?b] => destruct (Z.ltb_spec a b)
         end; try reflexivity; nia.
Qed.

(** ** [binary_round_aux], arithmetically *)

Lemma fexp_ge_emin (k : Z) : emin <= fexp k.
Proof. unfold fexp, emin, SpecFloat.fexp. lia. Qed.

Lemma fexp_ge (k : Z) : k - Py.prec <= fexp k.
Proof. unfold fexp, SpecFloat.fexp. lia. Qed.

Lemma fexp_cases (k : Z) :
  (fexp k = emin /\ k - Py.prec <= emin) \/ (fexp k = k - Py.prec /\ emin < fexp k).
Proof. unfold fexp, emin, SpecFloat.fexp. lia. Qed.

Lemma pow2_lt_inv (a b : Z) : 0 <= b -> 2 ^ a < 2 ^ b -> a < b.
Proof.
  intros Hb H. destruct (Z.lt_ge_cases a b) as [|Hge]; [done|].
  assert (2 ^ b <= 2 ^ a) by (apply Z.pow_le_mono_r; lia). lia.
Qed.

Section Rounded.
Variables m e : Z.
Hypothesis m_pos : 0 < m.
Hypothesis shifts : e <= fexp (Zdigits2 m + e).

(** The rounded mantissa fits [prec] bits, or is [2 ^ prec] after a
    carry. *)
Lemma rounded_upper :
  0 <= nearest_even m (fexp (Zdigits2 m + e) - e) <= 2 ^ Py.prec.
Proof using m_pos shifts.
  set (j := fexp (Zdigits2 m + e) - e).
  assert (0 <= j) as Hj by (subst j; lia).
  pose proof (nearest_even_bounds m j Hj ltac:(lia)) as [Hlo Hhi].
  pose proof (Zdigits2_bounds m m_pos) as [_ Hm].
  pose proof (Zdigits2_pos m m_pos) as Hd.
  pose proof (fexp_ge (Zdigits2 m + e)) as Hf.
  assert (0 < 2 ^ j) by (apply Z.pow_pos_nonneg; lia).
  assert (0 <= m / 2 ^ j) by (apply Z.div_pos; lia).
  split; [lia|].
  assert (m / 2 ^ j < 2 ^ Py.prec); [|lia].
  apply Z.div_lt_upper_bound; [lia|].
  rewrite <- Z.pow_add_r by (unfold Py.prec; lia).
  eapply Z.lt_le_trans; [exact Hm|].
  apply Z.pow_le_mono_r; [lia|]. subst j. lia.
Qed.

(** Above the smallest exponent the rounded mantissa has its top bit. *)
Lemma rounded_lower :
  emin < fexp (Zdigits2 m + e) ->
  2 ^ (Py.prec - 1) <= nearest_even m (fexp (Zdigits2 m + e) - e).
Proof using m_pos shifts.
  intros Hnormal.
  set (j := fexp (Zdigits2 m + e) - e).
  assert (0 <= j) as Hj by (subst j; lia).
  pose proof (nearest_even_bounds m j Hj ltac:(lia)) as [Hlo Hhi].
  pose proof (Zdigits2_bounds m m_pos) as [Hm _].
  destruct (fexp_cases (Zdigits2 m + e)) as [[? ?]|[Hf _]]; [lia|].
  assert (0 < 2 ^ j) by (apply Z.pow_pos_nonneg; lia).
  assert (2 ^ (Py.prec - 1) <= m / 2 ^ j); [|lia].
  apply Z.div_le_lower_bound; [lia|].
  rewrite <- Z.pow_add_r by (unfold Py.prec; lia).
  eapply Z.le_trans; [|exact Hm].
  apply Z.pow_le_mono_r; [lia|]. subst j. lia.
Qed.

End Rounded.

(** The second normalization of [binary_round_aux] and its final test. *)
Lemma pack_spec (r e : Z) :
  0 <= r <= 2 ^ Py.prec -> emin <= e ->
  (let '(mrs, e') := shr_fexp Py.prec Py.emax r e loc_Exact in
   match shr_m mrs with
   | Z0 => S754_zero false
   | Zpos m => if e' <=? Py.emax - Py.prec then S754_finite false m e'
               else S754_infinity false
   | Zneg _ => S754_nan
   end) = pack r e.
Proof.
  intros [Hr0 Hr] He. unfold pack, shr_fexp.
  destruct (Z.eqb_spec r (2 ^ Py.prec)) as [->|Hne].
  - replace (SpecFloat.fexp Py.prec Py.emax (Zdigits2 (2 ^ Py.prec) + e) - e)
      with 1; [reflexivity|].
    change (Zdigits2 (2 ^ Py.prec)) with 54.
    unfold SpecFloat.fexp, emin, SpecFloat.emin, Py.prec, Py.emax in *. lia.
  - assert (SpecFloat.fexp Py.prec Py.emax (Zdigits2 r + e) - e <= 0) as Hn.
    { destruct (Z.eq_dec r 0) as [->|Hr'].
      - cbn [Zdigits2].
        unfold SpecFloat.fexp, emin, SpecFloat.emin, Py.prec, Py.emax in *. lia.
      - pose proof (Zdigits2_bounds r ltac:(lia)) as [Hlo _].
        assert (Zdigits2 r - 1 < Py.prec)
          by (apply pow2_lt_inv; [unfold Py.prec|]; lia).
        unfold SpecFloat.fexp, emin, SpecFloat.emin, Py.prec, Py.emax in *. lia. }
    unfold shr.
    destruct (SpecFloat.fexp Py.prec Py.emax (Zdigits2 r + e) - e); try lia;
      cbn [shr_record_of_loc shr_m]; destruct r; try lia; reflexivity.
Qed.

(** [binary_round_aux] on an exact positive mantissa that needs no left
    shift. *)
Lemma binary_round_aux_round (p : positive) (e : Z) :
  e <= fexp (Zdigits2 (Zpos p) + e) ->
  binary_round_aux Py.prec Py.emax false (Zpos p) e loc_Exact = round (Zpos p) e.
Proof.
  intros Hshift.
  pose proof (rounded_upper (Zpos p) e ltac:(lia) Hshift) as Hupper.
  pose proof (fexp_ge_emin (Zdigits2 (Zpos p) + e)) as Hemin.
  unfold round.
  rewrite <- (pack_spec _ _ Hupper Hemin).
  unfold binary_round_aux, shr_fexp at 1.
  fold (fexp (Zdigits2 (Zpos p) + e)).
  unfold shr, shr_record_of_loc.
  destruct (fexp (Zdigits2 (Zpos p) + e) - e) as [|j|j] eqn:Ej; try lia.
  - assert (fexp (Zdigits2 (Zpos p) + e) = e) as -> by lia.
    cbn [shr_m loc_of_shr_record round_nearest_even].
    rewrite nearest_even_0. reflexivity.
  - assert (e + Zpos j = fexp (Zdigits2 (Zpos p) + e)) as -> by lia.
    rewrite (round_shr (Zpos p) j ltac:(lia)). reflexivity.
Qed.

(** ** The order on rounded values *)

Lemma finite_le (m1 : positive) (e1 : Z) (m2 : positive) (e2 : Z) :
  e1 < e2 \/ (e1 = e2 /\ Zpos m1 <= Zpos m2) ->
  SFleb (S754_finite false m1 e1) (S754_finite false m2 e2) = true.
Proof.
  intros H. unfold SFleb, SFcompare.
  destruct (Z.compare_spec e1 e2) as [He|He|He]; [|reflexivity|lia].
  change (Pos.compare_cont Eq m1 m2) with (Pos.compare m1 m2).
  destruct (Pos.compare_spec m1 m2); try reflexivity; lia.
Qed.

Lemma finite_le_inv (m1 : positive) (e1 : Z) (m2 : positive) (e2 : Z) :
  SFleb (S754_finite false m1 e1) (S754_finite false m2 e2) = true ->
  e1 < e2 \/ (e1 = e2 /\ Zpos m1 <= Zpos m2).
Proof.
  unfold SFleb, SFcompare.
  destruct (Z.compare_spec e1 e2) as [He|He|He]; [|lia|discriminate].
  change (Pos.compare_cont Eq m1 m2) with (Pos.compare m1 m2).
  destruct (Pos.compare_spec m1 m2); try discriminate; lia.
Qed.

(** Packing is monotone: at one exponent in the mantissa, and across
    exponents when the larger one holds a normal mantissa. *)
Lemma pack_le (r1 e1 r2 e2 : Z) :
  0 <= r1 <= 2 ^ Py.prec -> 0 <= r2 <= 2 ^ Py.prec ->
  (e1 = e2 /\ r1 <= r2) \/ (e1 < e2 /\ 2 ^ (Py.prec - 1) <= r2) ->
  SFleb (pack r1 e1) (pack r2 e2) = true.
Proof.
  unfold pack.
  change (2 ^ Py.prec) with 9007199254740992.
  change (2 ^ (Py.prec - 1)) with 4503599627370496.
  change (Py.emax - Py.prec) with 971.
  intros H1 H2 H.
  destruct (Z.eqb_spec r1 9007199254740992) as [->|N1];
    destruct (Z.eqb_spec r2 9007199254740992) as [->|N2];
    try (destruct r1 as [|p1|p1]; try lia);
    try (destruct r2 as [|p2|p2]; try lia);
    repeat match goal with
           | |- context [?a <=? ?b] => destruct (Z.leb_spec a b)
           end;
    try reflexivity; try lia; apply finite_le; lia.
Qed.

Lemma round_mono_aligned (m1 m2 e : Z) :
  0 < m1 <= m2 ->
  e <= fexp (Zdigits2 m1 + e) ->
  SFleb (round m1 e) (round m2 e) = true.
Proof.
  intros [H1 H12] Hs1.
  assert (0 < m2) as H2 by lia.
  pose proof (Zdigits2_mono m1 m2 ltac:(lia)) as Hd.
  pose proof (fexp_mono (Zdigits2 m1 + e) (Zdigits2 m2 + e) ltac:(lia)) as Hf.
  assert (e <= fexp (Zdigits2 m2 + e)) as Hs2 by lia.
  unfold round. apply pack_le.
  - by apply rounded_upper.
  - by apply rounded_upper.
  - destruct (Z.eq_dec (fexp (Zdigits2 m1 + e)) (fexp (Zdigits2 m2 + e))) as [Heq|Hne].
    + left. split; [done|]. rewrite Heq. apply nearest_even_mono; lia.
    + right. split; [lia|]. apply rounded_lower; [done..|].
      pose proof (fexp_ge_emin (Zdigits2 m1 + e)). lia.
Qed.

Lemma round_shift (m e k : Z) :
  0 < m -> 0 <= k ->
  e <= fexp (Zdigits2 m + e) ->
  round (m * 2 ^ k) (e - k) = round m e.
Proof.
  intros Hm Hk Hs. unfold round.
  rewrite Zdigits2_shift by done.
  replace (Zdigits2 m + k + (e - k)) with (Zdigits2 m + e) by lia.
  replace (fexp (Zdigits2 m + e) - (e - k))
    with (fexp (Zdigits2 m + e) - e + k) by lia.
  rewrite nearest_even_shift by lia. reflexivity.
Qed.

(** Rounding is monotone in the value [m * 2 ^ e]. *)
Lemma round_mono (m1 e1 m2 e2 : Z) :
  0 < m1 -> 0 < m2 ->
  e1 <= fexp (Zdigits2 m1 + e1) ->
  e2 <= fexp (Zdigits2 m2 + e2) ->
  m1 * 2 ^ (e1 - Z.min e1 e2) <= m2 * 2 ^ (e2 - Z.min e1 e2) ->
  SFleb (round m1 e1) (round m2 e2) = true.
Proof.
  intros H1 H2 Hs1 Hs2 Hle.
  set (e := Z.min e1 e2) in *.
  assert (0 < 2 ^ (e1 - e)) by (apply Z.pow_pos_nonneg; lia).
  assert (0 < 2 ^ (e2 - e)) by (apply Z.pow_pos_nonneg; lia).
  rewrite <- (round_shift m1 e1 (e1 - e) H1 ltac:(lia) Hs1).
  rewrite <- (round_shift m2 e2 (e2 - e) H2 ltac:(lia) Hs2).
  replace (e1 - (e1 - e)) with e by lia.
  replace (e2 - (e2 - e)) with e by lia.
  apply round_mono_aligned; [nia|].
  rewrite Zdigits2_shift by lia.
  replace (Zdigits2 m1 + (e1 - e) + e) with (Zdigits2 m1 + e1) by lia. lia.
Qed.

(** ** Well-formed floats and their values *)

Lemma bounded_inv (m : positive) (e : Z) :
  bounded Py.prec Py.emax m e = true ->
  fexp (Zdigits2 (Zpos m) + e) = e
  /\ emin <= e <= Py.emax - Py.prec
  /\ Zpos m < 2 ^ Py.prec
  /\ (emin < e -> 2 ^ (Py.prec - 1) <= Zpos m).
Proof.
  unfold bounded, canonical_mantissa. rewrite andb_true_iff, Z.eqb_eq, Z.leb_le.
  fold (fexp (Zpos (digits2_pos m) + e)). cbn [Zdigits2]. intros [Hc He].
  pose proof (fexp_ge_emin (Zpos (digits2_pos m) + e)).
  pose proof (fexp_ge (Zpos (digits2_pos m) + e)) as Hge.
  pose proof (digits2_pos_bounds m) as [Hlo Hhi].
  repeat split; try lia.
  - eapply Z.lt_le_trans; [exact Hhi|]. apply Z.pow_le_mono_r; lia.
  - intros Hn. destruct (fexp_cases (Zpos (digits2_pos m) + e)) as [[? ?]|[Hf _]];
      [lia|].
    eapply Z.le_trans; [|exact Hlo]. apply Z.pow_le_mono_r; lia.
Qed.

Lemma nonneg_cases (x : Py.float) :
  nonneg x = true ->
  (exists s, x = S754_zero s)
  \/ (exists m e, x = S754_finite false m e /\ bounded Py.prec Py.emax m e = true).
Proof.
  destruct x as [s|s| |[|] m e]; cbn; try discriminate; eauto.
Qed.

Lemma val_nonneg (x : Py.float) : nonneg x = true -> 0 <= val x.
Proof.
  intros [[s ->]|(m & e & -> & Hb)]%nonneg_cases; cbn; [lia|].
  apply bounded_inv in Hb as (_ & He & _).
  assert (0 < 2 ^ (e - emin)) by (apply Z.pow_pos_nonneg; lia). lia.
Qed.

Lemma val_finite (m : positive) (e : Z) :
  bounded Py.prec Py.emax m e = true -> 0 < val (S754_finite false m e).
Proof.
  intros (_ & He & _)%bounded_inv. cbn.
  assert (0 < 2 ^ (e - emin)) by (apply Z.pow_pos_nonneg; lia). lia.
Qed.

Lemma zero_le_nonneg (s : bool) (y : Py.float) :
  nonneg y = true -> SFleb (S754_zero s) y = true.
Proof. intros [[s' ->]|(m & e & -> & _)]%nonneg_cases; reflexivity. Qed.

(** A well-formed float is the rounding of its own value. *)
Lemma round_canonical (m : positive) (e : Z) :
  bounded Py.prec Py.emax m e = true ->
  round (Zpos m) e = S754_finite false m e.
Proof.
  intros Hb. pose proof Hb as (Hf & He & Hm & _)%bounded_inv.
  unfold round. rewrite Hf, Z.sub_diag, nearest_even_0.
  unfold pack. destruct (Z.eqb_spec (Zpos m) (2 ^ Py.prec)); [lia|].
  destruct (Z.leb_spec e (Py.emax - Py.prec)); [reflexivity|lia].
Qed.

Lemma round_val (m : positive) (e : Z) :
  bounded Py.prec Py.emax m e = true ->
  round (val (S754_finite false m e)) emin = S754_finite false m e.
Proof.
  intros Hb. pose proof Hb as (Hf & He & _)%bounded_inv.
  rewrite <- (round_canonical m e Hb) at 2. cbn [val].
  rewrite <- (round_shift (Zpos m) e (e - emin)) by lia.
  f_equal. lia.
Qed.

(** Rounding yields zero, a well-formed positive float, or infinity. *)
Lemma round_nonneg (m e : Z) :
  0 < m -> e <= fexp (Zdigits2 m + e) ->
  nonneg (round m e) = true \/ round m e = S754_infinity false.
Proof.
  intros Hm Hs.
  pose proof (rounded_upper m e Hm Hs) as [Hr0 Hr].
  pose proof (rounded_lower m e Hm Hs) as Hlow.
  pose proof (fexp_ge_emin (Zdigits2 m + e)) as Hemin.
  unfold round.
  set (r := nearest_even m (fexp (Zdigits2 m + e) - e)) in *.
  set (e' := fexp (Zdigits2 m + e)) in *.
  assert (forall (p : positive) (f : Z),
            emin <= f -> (emin < f -> 2 ^ (Py.prec - 1) <= Zpos p) ->
            Zpos p < 2 ^ Py.prec -> f <= Py.emax - Py.prec ->
            bounded Py.prec Py.emax p f = true) as Hbounded.
  { intros p f Hf Hnormal Hp Hfmax.
    unfold bounded, canonical_mantissa.
    rewrite andb_true_iff, Z.eqb_eq, Z.leb_le. split; [|done].
    pose proof (digits2_pos_bounds p) as [Hlo Hhi].
    assert (Zpos (digits2_pos p) - 1 < Py.prec)
      by (apply pow2_lt_inv; [unfold Py.prec|]; lia).
    destruct (Z.eq_dec f emin) as [->|Hne].
    - unfold SpecFloat.fexp, emin, SpecFloat.emin, Py.prec, Py.emax in *. lia.
    - assert (Py.prec - 1 < Zpos (digits2_pos p))
        by (apply pow2_lt_inv; lia).
      unfold SpecFloat.fexp, emin, SpecFloat.emin, Py.prec, Py.emax in *. lia. }
  unfold pack.
  destruct (Z.eqb_spec r (2 ^ Py.prec)) as [Hcarry|Hno].
  - change (2 ^ (Py.prec - 1)) with (Zpos 4503599627370496).
    destruct (Z.leb_spec (e' + 1) (Py.emax - Py.prec)); [left|by right].
    cbn [nonneg]. apply Hbounded; try lia; reflexivity.
  - destruct r as [|p|p]; [by left| |lia].
    destruct (Z.leb_spec e' (Py.emax - Py.prec)); [left|by right].
    cbn [nonneg]. apply Hbounded; try lia.
Qed.

(** The order of well-formed floats is the order of their values. *)
Lemma val_le (x y : Py.float) :
  nonneg x = true -> nonneg y = true -> SFleb x y = true -> val x <= val y.
Proof.
  intros [[s ->]|(mx & ex & -> & Hx)]%nonneg_cases Hy Hle.
  { by apply val_nonneg. }
  apply nonneg_cases in Hy as [[s ->]|(my & ey & -> & Hy)]; [discriminate|].
  apply finite_le_inv in Hle.
  apply bounded_inv in Hx as (_ & Hex & Hmx & _).
  apply bounded_inv in Hy as (_ & Hey & _ & Hmy).
  cbn [val].
  assert (0 < 2 ^ (ex - emin)) by (apply Z.pow_pos_nonneg; lia).
  destruct Hle as [Hlt|[-> Hm]]; [|nia].
  replace (ey - emin) with ((ey - ex) + (ex - emin)) by lia.
  rewrite Z.pow_add_r by lia.
  assert (2 ^ 1 <= 2 ^ (ey - ex)) by (apply Z.pow_le_mono_r; lia).
  specialize (Hmy ltac:(lia)).
  change (2 ^ 1) with 2 in *.
  change (2 ^ Py.prec) with 9007199254740992 in *.
  change (2 ^ (Py.prec - 1)) with 4503599627370496 in *.
  assert (Zpos mx <= Zpos my * 2 ^ (ey - ex)) by nia.
  rewrite Z.mul_assoc. apply Z.mul_le_mono_nonneg_r; lia.
Qed.

(** ** Multiplication and addition, on values *)

Lemma iter_xO (m d : positive) : Zpos (Pos.iter xO m d) = Zpos m * 2 ^ Zpos d.
Proof.
  induction d as [|d IH] using Pos.peano_ind.
  - cbn. lia.
  - rewrite Pos.iter_succ, Pos2Z.inj_succ, Z.pow_succ_r by lia.
    rewrite Pos2Z.inj_xO, IH. lia.
Qed.

Lemma shl_align_fst (m : positive) (e e' : Z) :
  e' <= e -> Zpos (fst (shl_align m e e')) = Zpos m * 2 ^ (e - e').
Proof.
  intros He. unfold shl_align.
  destruct (e' - e) as [|d|d] eqn:Ed; try lia; cbn [fst].
  - replace (e - e') with 0 by lia. lia.
  - rewrite iter_xO. f_equal. f_equal. lia.
Qed.

Lemma shl_align_id (m : positive) (e e' : Z) :
  e <= e' -> shl_align m e e' = (m, e).
Proof.
  intros He. unfold shl_align. destruct (e' - e) eqn:Ed; try lia; reflexivity.
Qed.

(** The product of two well-formed positive floats is the rounding of
    the product of their values. *)
Lemma mul_val (mx : positive) (ex : Z) (my : positive) (ey : Z) :
  bounded Py.prec Py.emax mx ex = true ->
  bounded Py.prec Py.emax my ey = true ->
  Py.mul (S754_finite false mx ex) (S754_finite false my ey)
  = round (val (S754_finite false mx ex) * val (S754_finite false my ey))
      (2 * emin).
Proof.
  intros (_ & Hex & _ & Hmx)%bounded_inv (_ & Hey & _ & Hmy)%bounded_inv.
  unfold Py.mul, SFmul. cbn [xorb val]. rewrite Pos2Z.inj_mul.
  assert (ex + ey <= fexp (Zdigits2 (Zpos mx * Zpos my) + (ex + ey))) as Hs.
  { pose proof (fexp_ge_emin (Zdigits2 (Zpos mx * Zpos my) + (ex + ey))).
    pose proof (fexp_ge (Zdigits2 (Zpos mx * Zpos my) + (ex + ey))).
    pose proof (Zdigits2_bounds (Zpos mx * Zpos my) ltac:(lia)) as [_ Hhi].
    change (2 ^ (Py.prec - 1)) with 4503599627370496 in *.
    assert (emin < ex \/ emin < ey \/ (ex = emin /\ ey = emin)) as [Hc|[Hc|Hc]] by lia.
    - assert (52 < Zdigits2 (Zpos mx * Zpos my)).
      { apply pow2_lt_inv; [pose proof (Zdigits2_pos (Zpos mx * Zpos my)); lia|].
        change (2 ^ 52) with 4503599627370496. nia. }
      unfold Py.prec in *. lia.
    - assert (52 < Zdigits2 (Zpos mx * Zpos my)).
      { apply pow2_lt_inv; [pose proof (Zdigits2_pos (Zpos mx * Zpos my)); lia|].
        change (2 ^ 52) with 4503599627370496. nia. }
      unfold Py.prec in *. lia.
    - unfold emin, SpecFloat.emin, Py.prec, Py.emax in *. lia. }
  change (Zpos mx * Zpos my) with (Zpos (mx * my)) in Hs |- *.
  rewrite binary_round_aux_round by exact Hs.
  rewrite <- (round_shift (Zpos (mx * my)) (ex + ey) (ex + ey - 2 * emin))
    by (unfold emin, SpecFloat.emin, Py.prec, Py.emax in *; lia).
  f_equal; [|lia].
  replace (ex + ey - 2 * emin) with ((ex - emin) + (ey - emin)) by lia.
  rewrite Z.pow_add_r by lia. rewrite Pos2Z.inj_mul. lia.
Qed.

(** The sum of two well-formed non-negative floats, one of them positive,
    is the rounding of the sum of their values. *)
Lemma add_val (x y : Py.float) :
  nonneg x = true -> nonneg y = true -> 0 < val x + val y ->
  Py.add x y = round (val x + val y) emin.
Proof.
  intros [[sx ->]|(mx & ex & -> & Hx)]%nonneg_cases
         [[sy ->]|(my & ey & -> & Hy)]%nonneg_cases Hpos.
  - cbn in Hpos. lia.
  - cbn [val]. rewrite Z.add_0_l. symmetry. by apply (round_val my ey).
  - cbn [val]. rewrite Z.add_0_r. symmetry. by apply (round_val mx ex).
  - pose proof Hx as (Hfx & Hex & _)%bounded_inv.
    pose proof Hy as (Hfy & Hey & _)%bounded_inv.
    unfold Py.add, SFadd. cbn [cond_Zopp].
    set (ez := Z.min ex ey).
    pose proof (shl_align_fst mx ex ez ltac:(lia)) as Ha.
    pose proof (shl_align_fst my ey ez ltac:(lia)) as Hb.
    set (a := fst (shl_align mx ex ez)) in *.
    set (b := fst (shl_align my ey ez)) in *.
    change (Zpos a + Zpos b) with (Zpos (a + b)).
    cbn [binary_normalize]. unfold binary_round.
    fold (fexp (Zpos (digits2_pos (a + b)) + ez)).
    assert (ez <= fexp (Zdigits2 (Zpos (a + b)) + ez)) as Hs.
    { assert (0 < 2 ^ (ex - ez)) by (apply Z.pow_pos_nonneg; lia).
      assert (0 < 2 ^ (ey - ez)) by (apply Z.pow_pos_nonneg; lia).
      destruct (Z.min_spec ex ey) as [[_ Hz]|[_ Hz]]; fold ez in Hz.
      - apply Z.le_trans with (fexp (Zdigits2 (Zpos mx) + ez));
          [rewrite Hz; lia|]. apply fexp_mono.
        assert (Zdigits2 (Zpos mx) <= Zdigits2 (Zpos (a + b))); [|lia].
        apply Zdigits2_mono. rewrite Pos2Z.inj_add, Ha, Hz, Z.sub_diag. lia.
      - apply Z.le_trans with (fexp (Zdigits2 (Zpos my) + ez));
          [rewrite Hz; lia|]. apply fexp_mono.
        assert (Zdigits2 (Zpos my) <= Zdigits2 (Zpos (a + b))); [|lia].
        apply Zdigits2_mono. rewrite Pos2Z.inj_add, Hb, Hz, Z.sub_diag. lia. }
    assert (emin <= ez) as Hez by (subst ez; lia).
    rewrite shl_align_id by exact Hs.
    rewrite binary_round_aux_round by exact Hs.
    rewrite <- (round_shift (Zpos (a + b)) ez (ez - emin)
                  ltac:(lia) ltac:(lia) Hs).
    f_equal; [|lia].
    rewrite Pos2Z.inj_add, Ha, Hb. cbn [val].
    replace (ex - emin) with ((ex - ez) + (ez - emin)) by lia.
    replace (ey - emin) with ((ey - ez) + (ez - emin)) by lia.
    rewrite !Z.pow_add_r by lia. lia.
Qed.

(** ** Multiplication and addition are monotone *)

Lemma le_finite_nonneg (x y : Py.float) :
  nonneg y = true -> SFleb x y = true ->
  nonneg x = true \/ x = S754_infinity false ->
  nonneg x = true.
Proof.
  intros Hy Hle [Hx| ->]; [done|].
  apply nonneg_cases in Hy as [[s ->]|(m & e & -> & _)]; discriminate.
Qed.

Lemma val_zero (x : Py.float) :
  nonneg x = true -> val x = 0 -> exists s, x = S754_zero s.
Proof.
  intros [[s ->]|(m & e & -> & Hb)]%nonneg_cases Hv; [eauto|].
  pose proof (val_finite m e Hb). lia.
Qed.

Lemma mul_mono (a b w : Py.float) :
  nonneg a = true -> nonneg b = true -> SFleb a b = true ->
  (exists m e, w = S754_finite false m e /\ bounded Py.prec Py.emax m e = true) ->
  nonneg (Py.mul b w) = true ->
  nonneg (Py.mul a w) = true /\ SFleb (Py.mul a w) (Py.mul b w) = true.
Proof.
  intros Ha Hb Hle (mw & ew & -> & Hw) Hbw.
  pose proof (val_le a b Ha Hb Hle) as Hval.
  pose proof (val_finite mw ew Hw) as Hvw.
  destruct (nonneg_cases a Ha) as [[s ->]|(ma & ea & -> & Hma)].
  { split; [reflexivity|]. by apply zero_le_nonneg. }
  destruct (nonneg_cases b Hb) as [[s ->]|(mb & eb & -> & Hmb)]; [discriminate|].
  pose proof (val_finite ma ea Hma) as Hva.
  rewrite (mul_val ma ea mw ew Hma Hw), (mul_val mb eb mw ew Hmb Hw) in *.
  set (va := val (S754_finite false ma ea)) in *.
  set (vb := val (S754_finite false mb eb)) in *.
  set (vw := val (S754_finite false mw ew)) in *.
  assert (2 * emin <= fexp (Zdigits2 (va * vw) + 2 * emin)) as Hs.
  { pose proof (fexp_ge_emin (Zdigits2 (va * vw) + 2 * emin)).
    unfold emin, SpecFloat.emin, Py.prec, Py.emax in *. lia. }
  assert (SFleb (round (va * vw) (2 * emin)) (round (vb * vw) (2 * emin)) = true)
    as Hround by (apply round_mono_aligned; [nia|exact Hs]).
  split; [|exact Hround].
  apply (le_finite_nonneg _ _ Hbw Hround).
  apply round_nonneg; [nia|exact Hs].
Qed.

Lemma add_mono (a b c d : Py.float) :
  nonneg a = true -> nonneg b = true -> nonneg c = true -> nonneg d = true ->
  SFleb a c = true -> SFleb b d = true ->
  nonneg (Py.add c d) = true ->
  nonneg (Py.add a b) = true /\ SFleb (Py.add a b) (Py.add c d) = true.
Proof.
  intros Ha Hb Hc Hd Hac Hbd Hcd.
  pose proof (val_le a c Ha Hc Hac). pose proof (val_le b d Hb Hd Hbd).
  pose proof (val_nonneg a Ha). pose proof (val_nonneg b Hb).
  destruct (Z.eq_dec (val a + val b) 0) as [Hzero|Hpos].
  - destruct (val_zero a Ha ltac:(lia)) as [sa ->].
    destruct (val_zero b Hb ltac:(lia)) as [sb ->].
    assert (exists s, Py.add (S754_zero sa) (S754_zero sb) = S754_zero s) as [s ->]
      by (destruct sa, sb; cbn; eauto).
    split; [reflexivity|]. by apply zero_le_nonneg.
  - rewrite (add_val a b Ha Hb ltac:(lia)), (add_val c d Hc Hd ltac:(lia)) in *.
    assert (emin <= fexp (Zdigits2 (val a + val b) + emin)) as Hs
      by apply fexp_ge_emin.
    assert (SFleb (round (val a + val b) emin) (round (val c + val d) emin) = true)
      as Hround by (apply round_mono_aligned; [lia|exact Hs]).
    split; [|exact Hround].
    apply (le_finite_nonneg _ _ Hcd Hround).
    apply round_nonneg; [lia|exact Hs].
Qed.

(** Term by term smaller sums are smaller, as long as the larger one
    stays finite. *)
Lemma sum_mono (ws : list Py.float) : forall (ps : list Py.float) (acc bound : Py.float),
  stays_finite ws bound = true ->
  Forall2 (fun p w => nonneg p = true /\ SFleb p w = true) ps ws ->
  nonneg acc = true -> SFleb acc bound = true ->
  nonneg (fold_left Py.add ps acc) = true
  /\ SFleb (fold_left Py.add ps acc) (fold_left Py.add ws bound) = true.
Proof.
  induction ws as [|w ws IH]; intros ps acc bound Hfin Hterms Hacc Hle.
  - inversion Hterms; subst. by cbn.
  - inversion Hterms as [|p w' ps' ws' [Hp Hpw] Hrest]; subst.
    cbn [stays_finite] in Hfin.
    apply andb_true_iff in Hfin as [[Hbound Hw]%andb_true_iff Hfin].
    assert (nonneg (Py.add bound w) = true) as Hnext.
    { destruct ws; cbn [stays_finite] in Hfin; [done|].
      by apply andb_true_iff in Hfin as [[? _]%andb_true_iff _]. }
    destruct (add_mono acc p bound w Hacc Hp Hbound Hw Hle Hpw Hnext)
      as [Hacc' Hle'].
    cbn [fold_left]. by apply IH.
Qed.

End RoundFacts.

(** * Main results: the weighted score *)

Lemma unit_score_nonneg (v : Py.float) :
  unit_score v = true ->
  Round.nonneg v = true /\ SFleb v (Py.of_int 1) = true.
Proof.
  unfold unit_score, Py.valid, Py.le.
  intros [[Hvalid Hlow]%andb_true_iff Hhigh]%andb_true_iff.
  split; [|exact Hhigh].
  destruct v as [s|[|]| |[|] m e]; try discriminate; try reflexivity.
  exact Hvalid.
Qed.

(** One term of the sum is at most its weight. *)
Lemma term_le (q w : Py.float) (m : positive) (e : Z) :
  w = S754_finite false m e ->
  bounded Py.prec Py.emax m e = true ->
  Py.mul (Py.of_int 1) w = w ->
  unit_score q = true ->
  Round.nonneg (Py.mul q w) = true /\ SFleb (Py.mul q w) w = true.
Proof.
  intros Hw Hb Hone [Hq Hle]%unit_score_nonneg.
  rewrite <- Hone at 3.
  apply RoundFacts.mul_mono; try done.
  - exists m, e. done.
  - rewrite Hone, Hw. exact Hb.
Qed.

Lemma get_unit_score (factors : gmap string Py.float) (key : string) :
  (forall k v, factors !! k = Some v -> unit_score v = true) ->
  unit_score (get factors key (Py.of_int 0)) = true.
Proof.
  intros Hunit. unfold get.
  destruct (factors !! key) as [v|] eqn:E; [by apply (Hunit key)|reflexivity].
Qed.

(** C3.  The weights, added up the way [sum] adds them, give exactly
    1.0.  The weighted score of a card whose ten factors are all 1.0 is
    exactly 10.0, that of a card whose ten factors are all 0.0 is exactly
    0.0, and for factors that are all scores between 0 and 1 (a missing
    factor counting as 0) the weighted score lies between 0 and 10. *)
Theorem weighted_quality_range :
  Py.sum (map snd weights) = Py.of_int 1
  /\ length weights = 10%nat
  /\ (forall factors : gmap string Py.float,
        (forall key, key ∈ map fst weights -> factors !! key = Some (Py.of_int 1)) ->
        weighted_quality factors = Py.of_int 10)
  /\ (forall factors : gmap string Py.float,
        (forall key, key ∈ map fst weights -> factors !! key = Some (Py.of_int 0)) ->
        weighted_quality factors = Py.of_int 0)
  /\ (forall factors : gmap string Py.float,
        (forall key v, factors !! key = Some v -> unit_score v = true) ->
        Py.le (Py.of_int 0) (weighted_quality factors) = true
        /\ Py.le (weighted_quality factors) (Py.of_int 10) = true).
Proof.
  split; [vm_compute; reflexivity|]. split; [reflexivity|].
  split; [|split].
  - intros factors Hall. unfold weighted_quality, weights, get.
    cbn [map fst snd].
    rewrite !Hall by (cbn [map fst]; repeat constructor).
    vm_compute. reflexivity.
  - intros factors Hall. unfold weighted_quality, weights, get.
    cbn [map fst snd].
    rewrite !Hall by (cbn [map fst]; repeat constructor).
    vm_compute. reflexivity.
  - intros factors Hunit.
    assert (Forall2 (fun p w => Round.nonneg p = true /\ SFleb p w = true)
              (map (fun fw : string * Py.float =>
                      Py.mul (get factors fw.1 (Py.of_int 0)) fw.2) weights)
              (map snd weights)) as Hterms.
    { unfold weights. cbn [map fst snd].
      repeat (constructor;
              [eapply term_le;
               [vm_compute; reflexivity|vm_compute; reflexivity
               |vm_compute; reflexivity|by apply get_unit_score]|]).
      constructor. }
    destruct (RoundFacts.sum_mono (map snd weights) _ (Py.of_int 0) (Py.of_int 0)
                ltac:(vm_compute; reflexivity) Hterms eq_refl eq_refl)
      as [Hsum Hle].
    change (fold_left Py.add (map snd weights) (Py.of_int 0))
      with (Py.sum (map snd weights)) in Hle.
    replace (Py.sum (map snd weights)) with (Py.of_int 1) in Hle
      by (vm_compute; reflexivity).
    destruct (RoundFacts.mul_mono _ (Py.of_int 1) (Py.of_int 10)
                Hsum eq_refl Hle) as [Hnonneg Hten].
    { eexists _, _. split; vm_compute; reflexivity. }
    { vm_compute. reflexivity. }
    unfold weighted_quality, Py.le, Py.sum. split.
    + by apply RoundFacts.zero_le_nonneg.
    + replace (Py.of_int 10) with (Py.mul (Py.of_int 1) (Py.of_int 10)) at 2
        by (vm_compute; reflexivity).
      exact Hten.
Qed.

Lemma weighted_quality_range_witness :
  weighted_quality (Sample.uniform Sample.one) = Py.of_int 10
  /\ weighted_quality (Sample.uniform (Py.of_int 0)) = Py.of_int 0
  /\ Py.le (Py.of_int 0) (weighted_quality Sample.weak_atomicity) = true
  /\ Py.le (weighted_quality Sample.weak_atomicity) (Py.of_int 10) = true.
Proof.
  destruct weighted_quality_range as (_ & _ & Hones & Hzeros & Hrange).
  split; [|split].
  - apply Hones. intros key Hkey.
    apply list_elem_of_lookup in Hkey as [i Hi].
    do 10 (destruct i as [|i]; [injection Hi as <-; vm_compute; reflexivity|]).
    discriminate.
  - apply Hzeros. intros key Hkey.
    apply list_elem_of_lookup in Hkey as [i Hi].
    do 10 (destruct i as [|i]; [injection Hi as <-; vm_compute; reflexivity|]).
    discriminate.
  - apply Hrange. intros key v Hv.
    unfold Sample.weak_atomicity in Hv.
    apply lookup_insert_Some in Hv as [[_ <-]|[_ Hv]]; [vm_compute; reflexivity|].
    apply elem_of_list_to_map_2, list_elem_of_fmap in Hv as (fw & Hfw & _).
    injection Hfw as _ ->. vm_compute. reflexivity.
Defined.

(** The exact values of C3 do not depend on the summation loop: the
    compensated loop of later interpreters gives them too.  (The range
    is established for the plain loop.) *)
Remark compensated_sum_agrees :
  Py.sum_compensated (map snd weights) = Py.sum (map snd weights)
  /\ Py.mul
       (Py.sum_compensated
          (map (fun fw : string * Py.float =>
                  Py.mul (get (Sample.uniform Sample.one) fw.1 (Py.of_int 0)) fw.2)
               weights))
       (Py.of_int 10)
     = weighted_quality (Sample.uniform Sample.one)
  /\ Py.mul
       (Py.sum_compensated
          (map (fun fw : string * Py.float =>
                  Py.mul (get (Sample.uniform (Py.of_int 0)) fw.1 (Py.of_int 0)) fw.2)
               weights))
       (Py.of_int 10)
     = weighted_quality (Sample.uniform (Py.of_int 0)).
Proof. repeat split; vm_compute; reflexivity. Qed.

(** * Further properties of the loop *)

Section Protocol.
Context {W : Type}.
Variable svc : service W.
Variables topic final_content difficulty : string.
Variable quality_threshold : Py.float.

Lemma body_pass iteration (st : state W) :
  exists pass,
    pass_calls pass
    /\ step_calls (body svc topic final_content difficulty quality_threshold
                     iteration st)
       = calls st ++ pass.
Proof.
  unfold body.
  repeat case_match; simpl;
    (eexists; split; [|rewrite <- ?app_assoc; simpl; reflexivity]);
    constructor.
Qed.

Lemma loop_passes remaining : forall iteration (st : state W),
  passes (calls st) ->
  passes (calls_of (loop svc topic final_content difficulty quality_threshold
                      remaining iteration st)).
Proof.
  induction remaining as [|remaining IH]; intros iteration st Hst; cbn [loop].
  - exact Hst.
  - destruct (body_pass iteration st) as (pass & Hpass & Hcalls).
    destruct (body _ _ _ _ _ iteration st) as [st'|why st'|made];
      cbn [step_calls] in Hcalls.
    + apply IH. rewrite Hcalls. by constructor.
    + cbn [calls_of]. rewrite Hcalls. by constructor.
    + cbn [calls_of]. rewrite Hcalls. by constructor.
Qed.

End Protocol.

Lemma passes_counts (made : list call) :
  passes made ->
  (occurrences is_refine made <= occurrences is_assess made
     <= occurrences is_generate made)%nat.
Proof.
  induction 1 as [|made pass _ IH Hpass]; [cbn; lia|].
  rewrite !occurrences_app. destruct Hpass; cbn; lia.
Qed.

(** X1.  The service is always called in whole passes: a generation,
    then possibly the assessment of the generated document, then possibly
    the refinement of that very document under that very assessment.  So
    nothing is assessed that was not just generated, nothing is refined
    that was not just assessed, and there are never more refinements than
    assessments nor more assessments than generations. *)
Theorem calls_come_in_passes {W : Type} (svc : service W)
    (topic final_content difficulty : string) (quality_threshold : Py.float)
    (max_iterations : Z) (w : W) :
  let made :=
    calls_of (run svc topic final_content difficulty quality_threshold
                max_iterations w) in
  passes made
  /\ (occurrences is_refine made <= occurrences is_assess made
        <= occurrences is_generate made)%nat.
Proof.
  intros made.
  assert (passes made) as Hpasses
    by (apply loop_passes; constructor).
  split; [exact Hpasses|]. by apply passes_counts.
Qed.

Lemma numbered_weaken (lo hi hi' : nat) (metrics : list Metrics.t) :
  (hi <= hi')%nat -> numbered lo hi metrics -> numbered lo hi' metrics.
Proof.
  revert lo. induction metrics as [|m rest IH]; intros lo Hle; cbn; [done|].
  intros [Hm Hrest]. split; [lia|]. by apply IH.
Qed.

Lemma numbered_snoc (lo hi : nat) (metrics : list Metrics.t) (m : Metrics.t) :
  (lo <= hi)%nat ->
  numbered lo hi metrics ->
  Metrics.iteration m = S hi ->
  numbered lo (S hi) (metrics ++ [m]).
Proof.
  revert lo. induction metrics as [|x rest IH]; intros lo Hlo; cbn.
  - intros _ Hm. lia.
  - intros [Hx Hrest] Hm. split; [lia|]. apply IH; [lia|done..].
Qed.

Lemma recorded_score_snoc (metrics : list Metrics.t) (m : Metrics.t) :
  recorded_score (metrics ++ [m]) = Metrics.overall_score m.
Proof. unfold recorded_score. by rewrite last_snoc. Qed.

Section Bookkeeping.
Context {W : Type}.
Variable svc : service W.
Variables topic final_content difficulty : string.
Variable quality_threshold : Py.float.

Lemma next_feedback_origin (priorities : list string) :
  feedback_origin (next_feedback priorities).
Proof.
  unfold feedback_origin, next_feedback.
  destruct priorities as [|p rest]; [by right; left|].
  right; right. by exists (p :: rest).
Qed.

(** A pass keeps the bookkeeping in order. *)
Lemma body_kept iteration (st : state W) :
  kept iteration st ->
  match body svc topic final_content difficulty quality_threshold iteration st with
  | Continue st' | Break _ st' => kept (S iteration) st'
  | Propagate made => Forall generate_feedback_known made
  end.
Proof.
  intros (Hnum & Hscore & Hfb & Hcalls).
  assert (Forall generate_feedback_known (calls st ++ [Generate (feedback st)]))
    as Hcalls1 by (apply Forall_app; split; [done|by constructor]).
  assert (forall c, generate_feedback_known c ->
            forall made, Forall generate_feedback_known made ->
            Forall generate_feedback_known (made ++ [c])) as Hsnoc
    by (intros c Hc made Hmade; apply Forall_app; split; [done|by constructor]).
  pose proof (numbered_weaken 0 iteration (S iteration)
                (iteration_metrics st) ltac:(lia) Hnum) as Hnum'.
  unfold body, kept.
  repeat case_match; simplify_eq;
    cbn [feedback overall_score iteration_metrics calls];
    repeat match goal with
           | |- _ /\ _ => split
           | |- numbered _ _ (_ ++ [_]) =>
               apply numbered_snoc; [lia|done|cbn; lia]
           | |- _ = recorded_score (_ ++ [_]) =>
               by rewrite recorded_score_snoc
           | |- feedback_origin (next_feedback _) => apply next_feedback_origin
           | |- Forall generate_feedback_known (_ ++ [_]) =>
               apply Hsnoc; [exact I|]
           end; try done.
Qed.

Lemma loop_kept remaining : forall iteration (st : state W),
  kept iteration st ->
  match loop svc topic final_content difficulty quality_threshold
          remaining iteration st with
  | Exhausted st' | Broke _ st' => kept (iteration + remaining) st'
  | Propagated made => Forall generate_feedback_known made
  end.
Proof.
  induction remaining as [|remaining IH]; intros iteration st Hst; cbn [loop].
  - by rewrite Nat.add_0_r.
  - pose proof (body_kept iteration st Hst) as Hbody.
    destruct (body _ _ _ _ _ iteration st) as [st'|why st'|made].
    + specialize (IH (S iteration) st' Hbody).
      replace (iteration + S remaining)%nat with (S iteration + remaining)%nat
        by lia.
      exact IH.
    + destruct Hbody as (Hnum & Hrest). split; [|exact Hrest].
      eapply numbered_weaken; [|exact Hnum]. lia.
    + exact Hbody.
Qed.

End Bookkeeping.

Lemma initial_kept {W : Type} (w : W) : kept 0 (initial_state w).
Proof.
  repeat split; cbn; try done. by left.
Qed.

(** X2.  When the loop is left without an exception, the iteration
    records carry increasing iteration numbers between 1 and
    [max_iterations], and [overall_score], the score that cards without
    quality factors receive, is the score of the last record, or 0 when
    no assessment was ever decoded. *)
Theorem records_are_numbered {W : Type} (svc : service W)
    (topic final_content difficulty : string) (quality_threshold : Py.float)
    (max_iterations : Z) (w : W) (st' : state W) :
  final_state (run svc topic final_content difficulty quality_threshold
                 max_iterations w) = Some st' ->
  numbered 0 (Z.to_nat max_iterations) (iteration_metrics st')
  /\ overall_score st' = recorded_score (iteration_metrics st').
Proof.
  unfold run. intros Hexit.
  pose proof (loop_kept svc topic final_content difficulty quality_threshold
                (Z.to_nat max_iterations) 0 (initial_state w) (initial_kept w))
    as Hkept.
  destruct (loop _ _ _ _ _ _ _ _) as [st|why st|made]; cbn in Hexit;
    [| |discriminate]; injection Hexit as <-;
    destruct Hkept as (Hnum & Hscore & _); done.
Qed.

Lemma records_are_numbered_witness :
  let st' :=
    assessed_state 0 (initial_state Run.converging) Sample.deck Sample.good
      (Scripted.Script [] [] []) in
  numbered 0 3 (iteration_metrics st')
  /\ overall_score st' = recorded_score (iteration_metrics st').
Proof.
  apply (records_are_numbered Scripted.svc Run.topic Run.content Run.level
           Sample.eight 3 Run.converging).
  unfold run. change (Z.to_nat 3) with 3%nat. cbn [loop].
  assert (default [] (FlashcardData.flashcards Sample.deck) <> []) as Hne
    by discriminate.
  rewrite (body_assessed Scripted.svc Run.topic Run.content Run.level
             Sample.eight 0 (initial_state Run.converging) Sample.deck _
             Sample.good _ eq_refl Hne eq_refl).
  replace (quality_reached Sample.eight Sample.good) with true
    by (vm_compute; reflexivity).
  reflexivity.
Defined.

(** X3.  The feedback of every generation call is the initial text, the
    fallback text, or [Focus on: ] followed by the first two of a
    non-empty list of priorities joined by [; ]: no other text ever
    reaches the generation prompt as feedback. *)
Theorem feedback_has_known_origin {W : Type} (svc : service W)
    (topic final_content difficulty : string) (quality_threshold : Py.float)
    (max_iterations : Z) (w : W) :
  Forall generate_feedback_known
    (calls_of (run svc topic final_content difficulty quality_threshold
                 max_iterations w)).
Proof.
  unfold run.
  pose proof (loop_kept svc topic final_content difficulty quality_threshold
                (Z.to_nat max_iterations) 0 (initial_state w) (initial_kept w))
    as Hkept.
  destruct (loop _ _ _ _ _ _ _ _) as [st|why st|made]; cbn [calls_of];
    [apply Hkept..|exact Hkept].
Qed.

(** X4.  An assessment reply that does not decode ends the pass with
    [continue]: no refinement is asked for, the feedback, the overall score
    and the iteration records stay as they were, and the generated document
    stays in [flashcard_data].  If that was the last pass, the generated
    cards are returned although nothing assessed them. *)
Theorem undecodable_assessment_keeps_cards {W : Type} (svc : service W)
    (topic final_content difficulty : string) (quality_threshold : Py.float)
    (iteration : nat) (st : state W) (data : FlashcardData.t) (w1 w2 : W) :
  generate_flashcards svc topic final_content difficulty (feedback st) (world st)
    = (Decoded data, w1) ->
  default [] (FlashcardData.flashcards data) <> [] ->
  assess_flashcards svc data topic w1 = (Undecodable, w2) ->
  body svc topic final_content difficulty quality_threshold iteration st
    = Continue (State (feedback st) (Some data) (overall_score st)
                  (iteration_metrics st) w2
                  (calls st ++ [Generate (feedback st); Assess data]))
  /\ finish topic difficulty
       (loop svc topic final_content difficulty quality_threshold 1 iteration st)
     = Returned
         (imap (make_flashcard topic difficulty (overall_score st))
               (default [] (FlashcardData.flashcards data))).
Proof.
  intros Hgen Hne Hassess.
  assert (body svc topic final_content difficulty quality_threshold iteration st
          = Continue (State (feedback st) (Some data) (overall_score st)
                        (iteration_metrics st) w2
                        (calls st ++ [Generate (feedback st); Assess data])))
    as Hbody.
  { unfold body. rewrite Hgen.
    destruct (default [] (FlashcardData.flashcards data)) as [|c cs] eqn:E;
      [done|].
    cbn [length Nat.eqb]. rewrite Hassess, <- app_assoc. reflexivity. }
  split; [exact Hbody|]. cbn [loop]. rewrite Hbody. reflexivity.
Qed.

Lemma undecodable_assessment_keeps_cards_witness :
  body Scripted.svc Run.topic Run.content Run.level Sample.eight 0
    Run2.unassessable
    = Continue (State initial_feedback (Some Sample.deck) (Py.of_int 0) []
                  (Scripted.Script [] [] [])
                  [Generate initial_feedback; Assess Sample.deck])
  /\ finish Run.topic Run.level
       (loop Scripted.svc Run.topic Run.content Run.level Sample.eight 1 0
          Run2.unassessable)
     = Returned
         (imap (make_flashcard Run.topic Run.level (Py.of_int 0))
               (default [] (FlashcardData.flashcards Sample.deck))).
Proof.
  apply (undecodable_assessment_keeps_cards Scripted.svc Run.topic Run.content
           Run.level Sample.eight 0 Run2.unassessable Sample.deck
           (Scripted.Script [] [Undecodable] []) (Scripted.Script [] [] [])).
  - reflexivity.
  - discriminate.
  - reflexivity.
Defined.

(** X5.  The cards of the last refinement are returned as they are.  In
    the last pass, when the refinement decodes, the loop runs out and the
    refined document is converted without ever being assessed: its cards
    without quality factors get the overall score of the assessment of the
    cards they replace. *)
Theorem last_refinement_is_not_assessed {W : Type} (svc : service W)
    (topic final_content difficulty : string) (quality_threshold : Py.float)
    (iteration : nat) (st : state W)
    (data : FlashcardData.t) (w1 : W) (assessment : Assessment.t) (w2 : W)
    (refined_data : FlashcardData.t) (w3 : W) :
  generate_flashcards svc topic final_content difficulty (feedback st) (world st)
    = (Decoded data, w1) ->
  default [] (FlashcardData.flashcards data) <> [] ->
  assess_flashcards svc data topic w1 = (Decoded assessment, w2) ->
  quality_reached quality_threshold assessment = false ->
  refine_flashcards svc data assessment topic w2 = (Decoded refined_data, w3) ->
  let exit :=
    loop svc topic final_content difficulty quality_threshold 1 iteration st in
  calls_of exit
    = calls st ++ [Generate (feedback st); Assess data; Refine data assessment]
  /\ finish topic difficulty exit
     = Returned
         (imap (make_flashcard topic difficulty
                  (default (Py.of_int 0) (Assessment.overall_score assessment)))
               (default [] (FlashcardData.flashcards refined_data))).
Proof.
  intros Hgen Hne Hassess Hq Hrefine exit. subst exit. cbn [loop].
  rewrite (body_assessed svc topic final_content difficulty quality_threshold
             iteration st data w1 assessment w2 Hgen Hne Hassess), Hq, Hrefine.
  cbn. rewrite <- app_assoc. done.
Qed.

Lemma last_refinement_is_not_assessed_witness :
  let exit :=
    loop Scripted.svc Run.topic Run.content Run.level Sample.eight 1 0
      Run.refining in
  calls_of exit
    = [Generate initial_feedback; Assess Sample.deck;
       Refine Sample.deck Sample.poor]
  /\ finish Run.topic Run.level exit
     = Returned
         (imap (make_flashcard Run.topic Run.level (Py.of_int 6))
               (default [] (FlashcardData.flashcards Sample.refined_deck))).
Proof.
  eapply (last_refinement_is_not_assessed Scripted.svc Run.topic Run.content
            Run.level Sample.eight 0 Run.refining
            Sample.deck _ Sample.poor _ Sample.refined_deck _).
  - reflexivity.
  - discriminate.
  - reflexivity.
  - vm_compute. reflexivity.
  - reflexivity.
Defined.

(** A loop whose service never raises is left with its variables. *)
Lemma loop_returns {W : Type} (svc : service W)
    (topic final_content difficulty : string) (quality_threshold : Py.float) :
  (forall fb w,
      (generate_flashcards svc topic final_content difficulty fb w).1 <> Raises) ->
  (forall data w, (assess_flashcards svc data topic w).1 <> Raises) ->
  (forall data assessment w,
      (refine_flashcards svc data assessment topic w).1 <> Raises) ->
  forall remaining iteration (st : state W),
    is_Some (final_state
               (loop svc topic final_content difficulty quality_threshold
                  remaining iteration st)).
Proof.
  intros Hgen Hassess Hrefine.
  induction remaining as [|remaining IH]; intros iteration st; cbn [loop].
  - by eexists.
  - assert (forall made,
              body svc topic final_content difficulty quality_threshold
                iteration st <> Propagate made) as Hbody.
    { intros made. unfold body.
      pose proof (Hgen (feedback st) (world st)) as Hg.
      destruct (generate_flashcards _ _ _ _ _ _) as [[| |data] w1];
        cbn in Hg; try done.
      destruct (length _ =? 0)%nat; [done|].
      pose proof (Hassess data w1) as Ha.
      destruct (assess_flashcards _ _ _ _) as [[| |assessment] w2];
        cbn in Ha; try done.
      destruct (quality_reached _ _); [done|].
      pose proof (Hrefine data assessment w2) as Hr.
      destruct (refine_flashcards _ _ _ _ _) as [[| |refined] w3];
        cbn in Hr; done. }
    destruct (body _ _ _ _ _ iteration st) as [st'|why st'|made].
    + apply IH.
    + by eexists.
    + by destruct (Hbody made).
Qed.

(** X6.  [create_flashcards] raises only when the content is blank or a
    call to the service raises: with content that is not blank and a
    service whose calls all return, it returns a list of cards, whatever
    the replies decode to and whatever [max_iterations] is. *)
Theorem returns_unless_a_call_raises {W : Type} (svc : service W)
    (topic final_content difficulty : string) (quality_threshold : Py.float)
    (max_iterations : Z) (w : W) :
  Text.blank final_content = false ->
  (forall fb w',
      (generate_flashcards svc topic final_content difficulty fb w').1 <> Raises) ->
  (forall data w', (assess_flashcards svc data topic w').1 <> Raises) ->
  (forall data assessment w',
      (refine_flashcards svc data assessment topic w').1 <> Raises) ->
  exists cards,
    create_flashcards svc topic final_content difficulty quality_threshold
      max_iterations w
    = Returned cards.
Proof.
  intros Hcontent Hgen Hassess Hrefine.
  unfold create_flashcards, run. rewrite Hcontent.
  destruct (loop_returns svc topic final_content difficulty quality_threshold
              Hgen Hassess Hrefine (Z.to_nat max_iterations) 0 (initial_state w))
    as [st' Hst'].
  destruct (loop _ _ _ _ _ _ _ _) as [st|why st|made]; cbn in Hst';
    [by eexists..|discriminate].
Qed.

Lemma returns_unless_a_call_raises_witness :
  exists cards,
    create_flashcards garbled Run.topic Run.content Run.level Sample.eight 3 tt
    = Returned cards.
Proof.
  apply (returns_unless_a_call_raises garbled Run.topic Run.content Run.level
           Sample.eight 3 tt); [reflexivity|done..].
Defined.

(** X7.  With [max_iterations] zero or negative the loop body never runs:
    no call reaches the service, and [create_flashcards] returns the empty
    list when the content is not blank. *)
Theorem no_iterations_no_calls {W : Type} (svc : service W)
    (topic final_content difficulty : string) (quality_threshold : Py.float)
    (max_iterations : Z) (w : W) :
  max_iterations <= 0 ->
  calls_of (run svc topic final_content difficulty quality_threshold
              max_iterations w) = []
  /\ (Text.blank final_content = false ->
      create_flashcards svc topic final_content difficulty quality_threshold
        max_iterations w
      = Returned []).
Proof.
  intros Hmax. unfold create_flashcards, run.
  replace (Z.to_nat max_iterations) with O by lia.
  split; [reflexivity|]. by intros ->.
Qed.

Lemma no_iterations_no_calls_witness :
  calls_of (run Scripted.svc Run.topic Run.content Run.level Sample.eight
              (-2) Run.converging) = []
  /\ (Text.blank Run.content = false ->
      create_flashcards Scripted.svc Run.topic Run.content Run.level
        Sample.eight (-2) Run.converging
      = Returned []).
Proof.
  apply (no_iterations_no_calls Scripted.svc Run.topic Run.content Run.level
           Sample.eight (-2) Run.converging). lia.
Defined.

(** * Text *)

Lemma lstrip_blank (s : string) : Text.blank s = true -> Str.lstrip s = ""%string.
Proof.
  induction s as [|c s IH]; cbn; [done|].
  destruct (Text.isspace c); cbn; [exact IH|discriminate].
Qed.

Lemma rstrip_empty (s : string) : Str.rstrip s = ""%string <-> Text.blank s = true.
Proof.
  induction s as [|c s IH]; cbn; [done|].
  destruct (Str.rstrip s) as [|d r] eqn:E.
  - destruct (Text.isspace c); cbn.
    + split; [intros _; by apply IH|done].
    + split; discriminate.
  - split; [discriminate|]. intros [_ Hb]%andb_true_iff.
    apply IH in Hb. discriminate.
Qed.

Lemma blank_lstrip (s : string) : Text.blank (Str.lstrip s) = Text.blank s.
Proof.
  induction s as [|c s IH]; cbn; [done|].
  destruct (Text.isspace c) eqn:E; cbn; [exact IH|by rewrite E].
Qed.

Lemma lstrip_head (s : string) :
  match Str.lstrip s with
  | EmptyString => True
  | String c _ => Text.isspace c = false
  end.
Proof.
  induction s as [|c s IH]; cbn; [done|].
  destruct (Text.isspace c) eqn:E; [exact IH|exact E].
Qed.

Lemma lstrip_fixed (s : string) :
  match s with
  | EmptyString => True
  | String c _ => Text.isspace c = false
  end -> Str.lstrip s = s.
Proof. destruct s as [|c s]; cbn; [done|]. by intros ->. Qed.

Lemma rstrip_head (s : string) :
  match s with
  | EmptyString => True
  | String c _ => Text.isspace c = false
  end ->
  match Str.rstrip s with
  | EmptyString => True
  | String c _ => Text.isspace c = false
  end.
Proof.
  destruct s as [|c s]; cbn; [done|]. intros Hc.
  destruct (Str.rstrip s); [by rewrite Hc|exact Hc].
Qed.

Lemma rstrip_idem (s : string) : Str.rstrip (Str.rstrip s) = Str.rstrip s.
Proof.
  induction s as [|c s IH]; cbn; [done|].
  destruct (Str.rstrip s) as [|d r] eqn:E.
  - destruct (Text.isspace c) eqn:Ec; cbn; [done|by rewrite Ec].
  - change (match Str.rstrip (String d r) with
            | EmptyString =>
                if Text.isspace c then EmptyString else String c EmptyString
            | String a kept => String c (String a kept)
            end = String c (String d r)).
    by rewrite IH.
Qed.

(** [strip] and the blank test agree: a text is blank exactly when
    stripping leaves nothing.  Stripping twice is stripping once, and a
    stripped text neither starts nor ends with white space. *)
Lemma strip_facts (s : string) :
  (Text.blank s = true <-> Str.strip s = ""%string)
  /\ Str.strip (Str.strip s) = Str.strip s
  /\ Str.lstrip (Str.strip s) = Str.strip s
  /\ Str.rstrip (Str.strip s) = Str.strip s.
Proof.
  unfold Str.strip.
  assert (Str.lstrip (Str.rstrip (Str.lstrip s)) = Str.rstrip (Str.lstrip s))
    as Hl by (apply lstrip_fixed, rstrip_head, lstrip_head).
  repeat split.
  - intros Hb. by rewrite lstrip_blank.
  - intros He. apply rstrip_empty in He. by rewrite blank_lstrip in He.
  - by rewrite Hl, rstrip_idem.
  - exact Hl.
  - apply rstrip_idem.
Qed.

(** * The content directory *)

Lemma sample_texts_check :
  String.length ContentManager.azure_openai_text = 717%nat
  /\ String.length ContentManager.azure_functions_text = 770%nat
  /\ String.length ContentManager.custom_content_text = 274%nat
  /\ Text.blank (Str.strip ContentManager.azure_openai_text) = false
  /\ Text.blank (Str.strip ContentManager.azure_functions_text) = false
  /\ Text.blank (Str.strip ContentManager.custom_content_text) = false.
Proof. repeat split; vm_compute; reflexivity. Qed.

(** One step of [_create_sample_files]. *)
Lemma create_sample_step (files : gmap string string) (name text : string) :
  let files' :=
    match files !! name with
    | Some _ => files
    | None => ContentManager.write files name (Str.strip text)
    end in
  (forall other kept, files !! other = Some kept -> files' !! other = Some kept)
  /\ is_Some (files' !! name)
  /\ (forall other, is_Some (files' !! other) ->
        is_Some (files !! other) \/ other = name)
  /\ (forall other,
        files !! other = None -> other <> name -> files' !! other = None).
Proof.
  cbv zeta. unfold ContentManager.write.
  destruct (files !! name) as [old|] eqn:E.
  - repeat split; try done; eauto.
  - repeat split.
    + intros other kept Hother.
      destruct (decide (other = name)) as [->|Hne]; [congruence|].
      by rewrite lookup_insert_ne.
    + rewrite lookup_insert_eq. eauto.
    + intros other Hsome.
      destruct (decide (other = name)) as [->|Hne]; [by right|].
      left. by rewrite lookup_insert_ne in Hsome.
    + intros other Hnone Hne. by rewrite lookup_insert_ne.
Qed.

Lemma create_sample_files_fixed (files : gmap string string) :
  Forall (fun sample : string * string => is_Some (files !! sample.1))
         ContentManager.sample_files ->
  ContentManager._create_sample_files files = files.
Proof.
  unfold ContentManager._create_sample_files.
  generalize ContentManager.sample_files as table.
  induction table as [|[name text] table IH]; intros Hall; [done|].
  inversion Hall as [|? ? [old Hold] Hrest]; subst.
  cbn [fold_left fst snd] in *. rewrite Hold. by apply IH.
Qed.

(** X8.  Creating the sample files never touches a file that exists:
    every file that was there keeps its text, the only names that can
    appear are the three sample names, all three can be read afterwards,
    and running the creation again changes nothing. *)
Theorem sample_files_never_overwrite (files : gmap string string) :
  let files' := ContentManager._create_sample_files files in
  (forall name text, files !! name = Some text -> files' !! name = Some text)
  /\ (forall name,
        is_Some (files' !! name) ->
        is_Some (files !! name)
        \/ name ∈ ["azure_openai.txt"; "azure_functions.txt";
                    "custom_content.txt"]%string)
  /\ (forall name,
        name ∈ ["azure_openai.txt"; "azure_functions.txt";
                 "custom_content.txt"]%string ->
        is_Some (ContentManager.read_content_file files' name))
  /\ ContentManager._create_sample_files files' = files'.
Proof.
  cbv zeta.
  unfold ContentManager._create_sample_files at 1 2 3 5,
         ContentManager.sample_files at 1 2 3 4.
  cbn [fold_left fst snd].
  pose proof (create_sample_step files "azure_openai.txt"
                ContentManager.azure_openai_text) as (K1 & S1 & D1 & _).
  cbv zeta in K1, S1, D1.
  set (f1 := match files !! "azure_openai.txt"%string with
             | Some _ => files
             | None => ContentManager.write files "azure_openai.txt"
                         (Str.strip ContentManager.azure_openai_text)
             end) in *.
  pose proof (create_sample_step f1 "azure_functions.txt"
                ContentManager.azure_functions_text) as (K2 & S2 & D2 & _).
  cbv zeta in K2, S2, D2.
  set (f2 := match f1 !! "azure_functions.txt"%string with
             | Some _ => f1
             | None => ContentManager.write f1 "azure_functions.txt"
                         (Str.strip ContentManager.azure_functions_text)
             end) in *.
  pose proof (create_sample_step f2 "custom_content.txt"
                ContentManager.custom_content_text) as (K3 & S3 & D3 & _).
  cbv zeta in K3, S3, D3.
  set (f3 := match f2 !! "custom_content.txt"%string with
             | Some _ => f2
             | None => ContentManager.write f2 "custom_content.txt"
                         (Str.strip ContentManager.custom_content_text)
             end) in *.
  assert (is_Some (f3 !! "azure_openai.txt"%string)) as R1.
  { destruct S1 as [t Ht]. exists t. eauto. }
  assert (is_Some (f3 !! "azure_functions.txt"%string)) as R2.
  { destruct S2 as [t Ht]. exists t. eauto. }
  repeat split.
  - eauto.
  - intros name Hname. rewrite !elem_of_cons.
    destruct (D3 name Hname) as [H3| ->]; [|by eauto].
    destruct (D2 name H3) as [H2| ->]; [|by eauto].
    destruct (D1 name H2) as [H1| ->]; by eauto.
  - intros name Hname. unfold ContentManager.read_content_file.
    rewrite !elem_of_cons in Hname.
    destruct Hname as [->|[->|[->|Hname]]].
    + destruct R1 as [t ->]. eauto.
    + destruct R2 as [t ->]. eauto.
    + destruct S3 as [t ->]. eauto.
    + by apply elem_of_nil in Hname.
  - apply create_sample_files_fixed.
    unfold ContentManager.sample_files.
    repeat constructor; cbn [fst]; assumption.
Qed.

(** ** Line endings *)








(** * Where the content comes from *)

Lemma get_predefined_content_cases (files : gmap string string) (topic : string) :
  let low := Text.lower topic in
  let openai :=
    if Str.contains "azure openai" low
    then ContentManager.read_content_file files "azure_openai.txt" else None in
  let functions :=
    if Str.contains "azure functions" low
    then ContentManager.read_content_file files "azure_functions.txt" else None in
  _get_predefined_content files topic
  = match openai, functions with
    | Some text, _ => text
    | None, Some text => text
    | None, None => placeholder topic
    end.
Proof.
  cbv zeta. unfold _get_predefined_content, predefined_topics.
  cbn [first_readable].
  destruct (Str.contains "azure openai" (Text.lower topic));
    destruct (Str.contains "azure functions" (Text.lower topic));
    repeat match goal with
           | |- context [ContentManager.read_content_file ?f ?n] =>
               destruct (ContentManager.read_content_file f n)
           end; reflexivity.
Qed.

(** X10.  [_get_predefined_content] never raises.  It answers with the
    stripped text of azure_openai.txt when the topic mentions "azure
    openai" in any mix of cases and the file exists; failing that, with
    the stripped text of azure_functions.txt when the topic mentions
    "azure functions" and that file exists; and otherwise with a
    placeholder sentence naming the topic, which is not blank.  A missing
    file is passed over in silence. *)
Theorem predefined_content_selection (files : gmap string string) (topic : string) :
  let low := Text.lower topic in
  (forall text,
      Str.contains "azure openai" low = true ->
      files !! "azure_openai.txt"%string = Some text ->
      _get_predefined_content files topic = Str.strip text)
  /\ (forall text,
        Str.contains "azure openai" low = false
        \/ files !! "azure_openai.txt"%string = None ->
        Str.contains "azure functions" low = true ->
        files !! "azure_functions.txt"%string = Some text ->
        _get_predefined_content files topic = Str.strip text)
  /\ ((Str.contains "azure openai" low = false
       \/ files !! "azure_openai.txt"%string = None) ->
      (Str.contains "azure functions" low = false
       \/ files !! "azure_functions.txt"%string = None) ->
      _get_predefined_content files topic
      = "Please provide content about " +:+ topic +:+ " to generate flashcards.")
  /\ Text.blank
       ("Please provide content about " +:+ topic +:+ " to generate flashcards.")
     = false.
Proof.
  cbv zeta. rewrite get_predefined_content_cases. cbv zeta.
  unfold ContentManager.read_content_file, placeholder.
  repeat split.
  - intros text -> ->. reflexivity.
  - intros text Hopenai -> ->.
    destruct Hopenai as [-> | ->]; [reflexivity|].
    by destruct (Str.contains "azure openai" (Text.lower topic)).
  - intros Hopenai Hfunctions.
    destruct Hopenai as [-> | ->], Hfunctions as [-> | ->];
      repeat match goal with
             | |- context [if ?b then _ else _] => destruct b
             end; reflexivity.
Qed.

Lemma predefined_content_selection_witness :
  _get_predefined_content fresh_directory "Intro to AZURE OpenAI"
  = Str.strip ContentManager.azure_openai_text
  /\ _get_predefined_content ∅ "Intro to AZURE OpenAI"
     = "Please provide content about Intro to AZURE OpenAI to generate flashcards."%string.
Proof.
  split.
  - destruct (strip_facts ContentManager.azure_openai_text) as (_ & Hidem & _).
    rewrite <- Hidem.
    apply (proj1 (predefined_content_selection fresh_directory
                    "Intro to AZURE OpenAI")).
    + vm_compute. reflexivity.
    + vm_compute. reflexivity.
  - apply (proj1 (proj2 (proj2 (predefined_content_selection ∅
                                  "Intro to AZURE OpenAI")))).
    + right. reflexivity.
    + right. reflexivity.
Defined.

Lemma fresh_directory_predefined (topic : string) :
  Text.blank (_get_predefined_content fresh_directory topic) = false.
Proof.
  rewrite get_predefined_content_cases. cbv zeta.
  assert (ContentManager.read_content_file fresh_directory "azure_openai.txt"
          = Some (Str.strip ContentManager.azure_openai_text)) as ->.
  { destruct (strip_facts ContentManager.azure_openai_text) as (_ & Hidem & _).
    rewrite <- Hidem. vm_compute. reflexivity. }
  assert (ContentManager.read_content_file fresh_directory "azure_functions.txt"
          = Some (Str.strip ContentManager.azure_functions_text)) as ->.
  { destruct (strip_facts ContentManager.azure_functions_text) as (_ & Hidem & _).
    rewrite <- Hidem. vm_compute. reflexivity. }
  destruct sample_texts_check as (_ & _ & _ & B1 & B2 & _).
  destruct (Str.contains "azure openai" (Text.lower topic));
    destruct (Str.contains "azure functions" (Text.lower topic));
    try exact B1; try exact B2; reflexivity.
Qed.

(** X11.  On a content directory that [ContentManager()] has just set up,
    the predefined source always finds content, whatever the topic: the
    content step raises nothing, and [create_flashcards] returns a list of
    cards as long as no call to the service raises. *)
Theorem predefined_source_never_fails {W : Type}
    (auto_generate : string -> string -> W -> option string * W)
    (wikipedia_summary : string -> option string) (svc : service W)
    (topic content content_file : string) (difficulty : DifficultyLevel)
    (max_iterations : Z) (quality_threshold : Py.float) (w : W) :
  (forall final fb w',
      (generate_flashcards svc topic final (DifficultyLevel_value difficulty)
         fb w').1 <> Raises) ->
  (forall data w', (assess_flashcards svc data topic w').1 <> Raises) ->
  (forall data assessment w',
      (refine_flashcards svc data assessment topic w').1 <> Raises) ->
  final_content_of auto_generate wikipedia_summary topic content PREDEFINED
    content_file difficulty fresh_directory w
  = inr (_get_predefined_content fresh_directory topic, w)
  /\ exists cards,
       create_flashcards_from auto_generate wikipedia_summary svc topic content
         PREDEFINED content_file difficulty max_iterations quality_threshold
         fresh_directory w
       = inr cards.
Proof.
  intros Hgen Hassess Hrefine.
  assert (final_content_of auto_generate wikipedia_summary topic content PREDEFINED
            content_file difficulty fresh_directory w
          = inr (_get_predefined_content fresh_directory topic, w)) as Hcontent.
  { unfold final_content_of. by rewrite fresh_directory_predefined. }
  split; [exact Hcontent|].
  unfold create_flashcards_from. rewrite Hcontent.
  unfold create_flashcards, run. rewrite fresh_directory_predefined.
  destruct (loop_returns svc topic (_get_predefined_content fresh_directory topic)
              (DifficultyLevel_value difficulty) quality_threshold
              (Hgen _) Hassess Hrefine (Z.to_nat max_iterations) 0
              (initial_state w)) as [st' Hst'].
  destruct (loop _ _ _ _ _ _ _ _) as [st|why st|made]; cbn in Hst';
    [by eexists..|discriminate].
Qed.

Lemma predefined_source_never_fails_witness :
  final_content_of no_generation no_article "Kubernetes" "" PREDEFINED ""
    BEGINNER fresh_directory tt
  = inr (_get_predefined_content fresh_directory "Kubernetes", tt)
  /\ exists cards,
       create_flashcards_from no_generation no_article garbled "Kubernetes" ""
         PREDEFINED "" BEGINNER 3 Sample.eight fresh_directory tt
       = inr cards.
Proof.
  apply (predefined_source_never_fails no_generation no_article garbled
           "Kubernetes" "" "" BEGINNER 3 Sample.eight tt); done.
Defined.

(** * Card ids *)

Lemma append_inj_l (p s1 s2 : string) : p +:+ s1 = p +:+ s2 -> s1 = s2.
Proof.
  induction p as [|c p IH]; [done|].
  change (String c p +:+ s1 = String c p +:+ s2)
    with (String c (p +:+ s1) = String c (p +:+ s2)).
  intros [= H]. by apply IH.
Qed.

Lemma length_append (s1 s2 : string) :
  String.length (s1 +:+ s2) = (String.length s1 + String.length s2)%nat.
Proof.
  induction s1 as [|c s1 IH]; [done|].
  change (String c s1 +:+ s2) with (String c (s1 +:+ s2)).
  cbn [String.length]. by rewrite IH.
Qed.

Lemma length_zeros (k : nat) : String.length (Text.zeros k) = k.
Proof. induction k as [|k IH]; cbn; [done|]. f_equal. exact IH. Qed.

Lemma uint_of_zeros (k : nat) (s : string) (d : Decimal.uint) :
  NilEmpty.uint_of_string s = Some d ->
  exists d', NilEmpty.uint_of_string (Text.zeros k +:+ s) = Some d'
             /\ Nat.of_uint d' = Nat.of_uint d.
Proof.
  intros Hs. induction k as [|k (d' & Hd' & Hval)]; [by exists d|].
  change (Text.zeros (S k) +:+ s) with (String "0" (Text.zeros k +:+ s)).
  cbn [NilEmpty.uint_of_string]. rewrite Hd'. cbn.
  exists (Decimal.D0 d'). split; [done|].
  rewrite <- Hval. reflexivity.
Qed.

(** The digits of [format_03d] spell the number. *)
Lemma format_03d_value (n : nat) :
  exists d, NilEmpty.uint_of_string (Text.format_03d n) = Some d
            /\ Nat.of_uint d = n.
Proof.
  unfold Text.format_03d.
  assert (NilEmpty.uint_of_string (NilZero.string_of_uint (Nat.to_uint n))
          = Some (Nat.to_uint n)) as Hdigits.
  { unfold NilZero.string_of_uint.
    destruct (Nat.to_uint n) eqn:E; try apply NilEmpty.usu.
    pose proof (DecimalNat.Unsigned.of_to n) as Hn. rewrite E in Hn.
    cbn in Hn. subst n. discriminate. }
  destruct (uint_of_zeros
              (3 - String.length (NilZero.string_of_uint (Nat.to_uint n)))
              _ _ Hdigits) as (d & Hd & Hval).
  exists d. split; [exact Hd|].
  rewrite Hval. apply DecimalNat.Unsigned.of_to.
Qed.

Lemma format_03d_inj (n m : nat) : Text.format_03d n = Text.format_03d m -> n = m.
Proof.
  intros Heq.
  destruct (format_03d_value n) as (d & Hd & <-).
  destruct (format_03d_value m) as (d' & Hd' & <-).
  rewrite Heq in Hd. congruence.
Qed.

Lemma card_id_inj (topic : string) (i j : nat) :
  card_id topic i = card_id topic j -> i = j.
Proof.
  unfold card_id. intros H.
  apply append_inj_l, append_inj_l, format_03d_inj in H. lia.
Qed.

Lemma format_03d_short :
  forallb (fun n => (String.length (Text.format_03d n) =? 3)%nat) (seq 0 1000)
  = true.
Proof. vm_compute. reflexivity. Qed.

(** X12.  The cards of one call get pairwise different ids, however many
    there are.  The number part of an id has at least three digits, and
    exactly three for the first 999 cards. *)
Theorem ids_are_distinct (topic difficulty : string)
    (flashcard_data : option FlashcardData.t) (overall_score : Py.float) :
  let final := final_cards topic difficulty flashcard_data overall_score in
  NoDup (id <$> final)
  /\ (forall i j card card',
        final !! i = Some card -> final !! j = Some card' ->
        id card = id card' -> i = j)
  /\ (forall i, (3 <= String.length (Text.format_03d (i + 1)))%nat)
  /\ (forall i, (i < 999)%nat -> String.length (Text.format_03d (i + 1)) = 3%nat).
Proof.
  cbv zeta.
  assert (forall i j card card',
            final_cards topic difficulty flashcard_data overall_score !! i
            = Some card ->
            final_cards topic difficulty flashcard_data overall_score !! j
            = Some card' ->
            id card = id card' -> i = j) as Hinj.
  { unfold final_cards. destruct flashcard_data as [data|]; [|done].
    intros i j card card'.
    rewrite !list_lookup_imap_Some.
    intros (c & _ & ->) (c' & _ & ->). cbn [id make_flashcard].
    apply card_id_inj. }
  repeat split.
  - apply NoDup_alt. intros i j x.
    rewrite !list_lookup_fmap_Some.
    intros (card & -> & Hi) (card' & Heq & Hj). eauto.
  - exact Hinj.
  - intros i. unfold Text.format_03d. rewrite length_append, length_zeros. lia.
  - intros i Hi.
    pose proof format_03d_short as Hall. rewrite forallb_forall in Hall.
    specialize (Hall (i + 1)%nat).
    rewrite in_seq in Hall. apply Nat.eqb_eq, Hall. lia.
Qed.

(** * The weighted score grows with the factors *)

(** Sums that stay below a finite sum term by term stay finite. *)
Lemma stays_finite_dominated (ws : list Py.float) :
  forall (ps : list Py.float) (acc bound : Py.float),
  Round.stays_finite ws bound = true ->
  Forall2 (fun p w => Round.nonneg p = true /\ SFleb p w = true) ps ws ->
  Round.nonneg acc = true -> SFleb acc bound = true ->
  Round.stays_finite ps acc = true.
Proof.
  induction ws as [|w ws IH]; intros ps acc bound Hfin Hterms Hacc Hle.
  - inversion Hterms; subst. exact Hacc.
  - inversion Hterms as [|p w' ps' ws' [Hp Hpw] Hrest]; subst.
    cbn [Round.stays_finite] in *.
    apply andb_true_iff in Hfin as [[Hbound Hw]%andb_true_iff Hfin].
    assert (Round.nonneg (Py.add bound w) = true) as Hnext.
    { destruct ws; cbn [Round.stays_finite] in Hfin; [done|].
      by apply andb_true_iff in Hfin as [[? _]%andb_true_iff _]. }
    destruct (RoundFacts.add_mono acc p bound w Hacc Hp Hbound Hw Hle Hpw Hnext)
      as [Hacc' Hle'].
    rewrite Hacc, Hp. cbn [andb]. by apply (IH _ _ (Py.add bound w)).
Qed.

(** The terms of the sum, for factors that are scores, are dominated
    by the weights. *)
Lemma terms_below_weights (factors : gmap string Py.float) :
  (forall key v, factors !! key = Some v -> unit_score v = true) ->
  Forall2 (fun p w => Round.nonneg p = true /\ SFleb p w = true)
    (map (fun fw : string * Py.float =>
            Py.mul (get factors fw.1 (Py.of_int 0)) fw.2) weights)
    (map snd weights).
Proof.
  intros Hunit. unfold weights. cbn [map fst snd].
  repeat (constructor;
          [eapply term_le;
           [vm_compute; reflexivity|vm_compute; reflexivity
           |vm_compute; reflexivity|by apply get_unit_score]|]).
  constructor.
Qed.

(** With the plain loop, raising factor scores never lowers the weighted
    score. *)
Lemma weighted_quality_monotone_plain (lower higher : gmap string Py.float) :
  (forall key v, lower !! key = Some v -> unit_score v = true) ->
  (forall key v, higher !! key = Some v -> unit_score v = true) ->
  (forall key,
      key ∈ map fst weights ->
      Py.le (get lower key (Py.of_int 0)) (get higher key (Py.of_int 0)) = true) ->
  Py.le (weighted_quality lower) (weighted_quality higher) = true.
Proof.
  intros Hlower Hhigher Hle.
  pose proof (terms_below_weights higher Hhigher) as Hbelow.
  assert (Forall2 (fun p w => Round.nonneg p = true /\ SFleb p w = true)
            (map (fun fw : string * Py.float =>
                    Py.mul (get lower fw.1 (Py.of_int 0)) fw.2) weights)
            (map (fun fw : string * Py.float =>
                    Py.mul (get higher fw.1 (Py.of_int 0)) fw.2) weights))
    as Hterms.
  { pose proof (terms_below_weights higher Hhigher) as Hh.
    revert Hh Hle. unfold weights. cbn [map fst snd]. intros Hh Hle.
    repeat (apply Forall2_cons_1 in Hh as [[Hnonneg _] Hh];
            constructor;
            [apply RoundFacts.mul_mono;
             [by apply unit_score_nonneg, get_unit_score
             |by apply unit_score_nonneg, get_unit_score
             |apply Hle; repeat constructor
             |eexists _, _; split; vm_compute; reflexivity
             |exact Hnonneg]|clear Hnonneg]).
    constructor. }
  assert (Round.stays_finite
            (map (fun fw : string * Py.float =>
                    Py.mul (get higher fw.1 (Py.of_int 0)) fw.2) weights)
            (Py.of_int 0) = true) as Hfinite.
  { apply (stays_finite_dominated (map snd weights) _ _ (Py.of_int 0));
      [vm_compute; reflexivity|exact Hbelow|reflexivity|reflexivity]. }
  destruct (RoundFacts.sum_mono _ _ (Py.of_int 0) (Py.of_int 0)
              Hfinite Hterms eq_refl eq_refl) as [Hsum Hsums].
  destruct (RoundFacts.sum_mono (map snd weights) _ (Py.of_int 0) (Py.of_int 0)
              ltac:(vm_compute; reflexivity) Hbelow eq_refl eq_refl)
    as [Hsum' Hone].
  change (fold_left Py.add (map snd weights) (Py.of_int 0))
    with (Py.sum (map snd weights)) in Hone.
  replace (Py.sum (map snd weights)) with (Py.of_int 1) in Hone
    by (vm_compute; reflexivity).
  destruct (RoundFacts.mul_mono _ (Py.of_int 1) (Py.of_int 10)
              Hsum' eq_refl Hone) as [Hscaled _].
  { eexists _, _. split; vm_compute; reflexivity. }
  { vm_compute. reflexivity. }
  unfold weighted_quality, Py.le, Py.sum.
  apply RoundFacts.mul_mono; try done.
  eexists _, _. split; vm_compute; reflexivity.
Qed.

(** X13.  With the plain loop of [sum], which CPython has up to version
    3.11, raising factor scores never lowers the weighted score: when
    every factor of one card is a score between 0 and 1 and at most the
    same factor of another card (a missing factor counting as 0), the
    weighted score of the first is at most that of the second, with the
    rounding of every multiplication and addition taken into account.
    With the compensated loop of later versions this fails: of the two
    cards of [Near_tie], which differ in one factor only, the one with the
    higher factor gets the strictly lower score. *)
Theorem weighted_quality_monotone_for_plain_sum_only :
  (forall lower higher : gmap string Py.float,
      (forall key v, lower !! key = Some v -> unit_score v = true) ->
      (forall key v, higher !! key = Some v -> unit_score v = true) ->
      (forall key,
          key ∈ map fst weights ->
          Py.le (get lower key (Py.of_int 0)) (get higher key (Py.of_int 0)) = true) ->
      Py.le (weighted_quality lower) (weighted_quality higher) = true)
  /\ ((forall key v, Near_tie.lower !! key = Some v -> unit_score v = true)
      /\ (forall key v, Near_tie.higher !! key = Some v -> unit_score v = true)
      /\ (forall key,
            key ∈ map fst weights ->
            Py.le (get Near_tie.lower key (Py.of_int 0))
                  (get Near_tie.higher key (Py.of_int 0)) = true)
      /\ Py.lt (get Near_tie.lower "practical_value" (Py.of_int 0))
               (get Near_tie.higher "practical_value" (Py.of_int 0)) = true
      /\ Py.lt (weighted_quality_compensated Near_tie.higher)
               (weighted_quality_compensated Near_tie.lower) = true
      /\ Py.lt (weighted_quality Near_tie.lower)
               (weighted_quality Near_tie.higher) = true).
Proof.
  split; [exact weighted_quality_monotone_plain|].
  assert (forall key v, Near_tie.lower !! key = Some v -> unit_score v = true)
    as Hlower.
  { intros key v Hv.
    apply elem_of_list_to_map_2, list_elem_of_lookup in Hv as [i Hi].
    do 5 (destruct i as [|i]; [injection Hi as _ <-; vm_compute; reflexivity|]).
    discriminate. }
  split; [exact Hlower|]. split; [|split; [|split; [|split]]].
  - intros key v Hv. unfold Near_tie.higher in Hv.
    apply lookup_insert_Some in Hv as [[_ <-]|[_ Hv]];
      [vm_compute; reflexivity|by apply (Hlower key)].
  - intros key Hkey.
    apply list_elem_of_lookup in Hkey as [i Hi].
    do 10 (destruct i as [|i]; [injection Hi as <-; vm_compute; reflexivity|]).
    discriminate.
  - vm_compute. reflexivity.
  - vm_compute. reflexivity.
  - vm_compute. reflexivity.
Qed.

Lemma weighted_quality_monotone_for_plain_sum_only_witness :
  Py.le (weighted_quality Sample.weak_atomicity)
        (weighted_quality (Sample.uniform Sample.one)) = true.
Proof.
  apply (proj1 weighted_quality_monotone_for_plain_sum_only).
  - intros key v Hv. unfold Sample.weak_atomicity in Hv.
    apply lookup_insert_Some in Hv as [[_ <-]|[_ Hv]]; [vm_compute; reflexivity|].
    apply elem_of_list_to_map_2, list_elem_of_fmap in Hv as (fw & Hfw & _).
    injection Hfw as _ ->. vm_compute. reflexivity.
  - intros key v Hv.
    apply elem_of_list_to_map_2, list_elem_of_fmap in Hv as (fw & Hfw & _).
    injection Hfw as _ ->. vm_compute. reflexivity.
  - intros key Hkey.
    apply list_elem_of_lookup in Hkey as [i Hi].
    do 10 (destruct i as [|i]; [injection Hi as <-; vm_compute; reflexivity|]).
    discriminate.
Defined.

(** * Scores that are not numbers

    [json.loads] accepts the literal [NaN], so a factor or an overall
    score can be the float that is not a number. *)

Lemma add_nan_l (x : Py.float) : Py.add S754_nan x = S754_nan.
Proof. reflexivity. Qed.

Lemma add_nan_r (x : Py.float) : Py.add x S754_nan = S754_nan.
Proof. by destruct x as [?|?| |? ? ?]. Qed.

Lemma mul_nan_l (x : Py.float) : Py.mul S754_nan x = S754_nan.
Proof. reflexivity. Qed.

Lemma fold_add_nan (l : list Py.float) : forall acc : Py.float,
  acc = S754_nan \/ In S754_nan l -> fold_left Py.add l acc = S754_nan.
Proof.
  induction l as [|x l IH]; intros acc [Hacc|Hin]; cbn [fold_left].
  - exact Hacc.
  - destruct Hin.
  - apply IH. left. subst acc. apply add_nan_l.
  - destruct Hin as [->|Hin]; apply IH; [left; apply add_nan_r|by right].
Qed.

Lemma lt_one_floors :
  Py.lt (Py.of_int 1) min_atomicity = false
  /\ Py.lt (Py.of_int 1) min_conciseness = false
  /\ Py.lt (Py.of_int 1) min_standalone = false
  /\ Py.lt (Py.of_int 1) min_no_hints = false.
Proof. repeat split; vm_compute; reflexivity. Qed.

(** X14.  A factor that is not a number makes the weighted score of its
    card not a number, and a card that carries it is scored by its
    factors, not by the overall score.  The floor check lets such a
    factor pass like a perfect 1.0, while an overall score that is not a
    number reaches no threshold. *)
Theorem nan_factor_spoils_score (factors : gmap string Py.float) (key : string) :
  key ∈ map fst weights ->
  factors !! key = Some S754_nan ->
  weighted_quality factors = S754_nan
  /\ (forall overall_score, card_quality factors overall_score = S754_nan)
  /\ below_floor factors = below_floor (<[key := Py.of_int 1]> factors)
  /\ (forall quality_threshold (assessment : Assessment.t),
        Assessment.overall_score assessment = Some S754_nan ->
        quality_reached quality_threshold assessment = false).
Proof.
  intros Hkey Hnan.
  assert (weighted_quality factors = S754_nan) as Hscore.
  { unfold weighted_quality, Py.sum.
    rewrite fold_add_nan; [reflexivity|]. right.
    apply list_elem_of_In, in_map_iff in Hkey as ([k w] & Hk & Hin).
    cbn in Hk. subst k.
    apply in_map_iff. exists (key, w). split; [|exact Hin].
    cbn [fst snd]. unfold get. by rewrite Hnan. }
  split; [exact Hscore|]. split; [|split].
  - intros overall_score. unfold card_quality.
    destruct (decide (factors = ∅)) as [->|_]; [|exact Hscore].
    by rewrite lookup_empty in Hnan.
  - destruct lt_one_floors as (H1 & H2 & H3 & H4).
    apply list_elem_of_lookup in Hkey as [i Hi].
    unfold below_floor, get.
    do 10 (destruct i as [|i];
           [injection Hi as <-;
            rewrite ?lookup_insert_eq, ?lookup_insert_ne, ?Hnan by done;
            rewrite ?H1, ?H2, ?H3, ?H4; reflexivity|]).
    discriminate.
  - intros quality_threshold assessment Hoverall.
    unfold quality_reached. rewrite Hoverall. cbn [default].
    unfold Py.ge, SFleb. by destruct quality_threshold.
Qed.

Lemma nan_factor_spoils_score_witness :
  weighted_quality
    (<["conciseness"%string := S754_nan]> (Sample.uniform Sample.one))
  = S754_nan
  /\ below_floor
       (<["conciseness"%string := S754_nan]> (Sample.uniform Sample.one))
     = false.
Proof.
  destruct (nan_factor_spoils_score
              (<["conciseness"%string := S754_nan]> (Sample.uniform Sample.one))
              "conciseness") as (Hscore & _ & Hfloor & _).
  - vm_compute. repeat constructor.
  - apply lookup_insert_eq.
  - split; [exact Hscore|]. rewrite Hfloor. vm_compute. reflexivity.
Defined.

(** * Pasted content *)

Lemma read_lines_body (rest body : list string) :
  forall (lines : list string) (count : nat),
  no_blank_pair body = true ->
  count = 0%nat
  \/ (count = 1%nat
      /\ exists line body', body = line :: body' /\ String.eqb line "" = false) ->
  read_lines (body ++ ""%string :: ""%string :: rest) lines count
  = Some (lines ++ body ++ [""%string], rest).
Proof.
  induction body as [|line body IH]; intros lines count Hbody Hcount.
  - destruct Hcount as [->|[_ (? & ? & ? & _)]]; [reflexivity|discriminate].
  - cbn [app read_lines]. cbn [no_blank_pair] in Hbody.
    destruct (String.eqb line "") eqn:Hline.
    + apply String.eqb_eq in Hline as ->.
      destruct Hcount as [->|[_ (? & ? & [= <- <-] & ?)]]; [|discriminate].
      destruct body as [|next body]; [discriminate|].
      apply andb_true_iff in Hbody as [Hnext Hbody].
      cbn [Nat.add Nat.leb].
      rewrite IH; [by rewrite <- !app_assoc|exact Hbody|].
      right. split; [reflexivity|]. exists next, body.
      split; [reflexivity|]. by apply negb_true_iff.
    + rewrite IH; [by rewrite <- !app_assoc|exact Hbody|by left].
Qed.

Lemma read_lines_eof (body : list string) :
  forall (lines : list string) (count : nat),
  no_blank_pair body = true ->
  count = 0%nat
  \/ (count = 1%nat
      /\ exists line body', body = line :: body' /\ String.eqb line "" = false) ->
  read_lines body lines count = None
  /\ read_lines (body ++ [""%string]) lines count = None.
Proof.
  induction body as [|line body IH]; intros lines count Hbody Hcount.
  - destruct Hcount as [->|[_ (? & ? & ? & _)]]; [done|discriminate].
  - cbn [app read_lines]. cbn [no_blank_pair] in Hbody.
    destruct (String.eqb line "") eqn:Hline.
    + apply String.eqb_eq in Hline as ->.
      destruct Hcount as [->|[_ (? & ? & [= <- <-] & ?)]]; [|discriminate].
      destruct body as [|next body]; [discriminate|].
      apply andb_true_iff in Hbody as [Hnext Hbody].
      cbn [Nat.add Nat.leb].
      apply IH; [exact Hbody|].
      right. split; [reflexivity|]. exists next, body.
      split; [reflexivity|]. by apply negb_true_iff.
    + apply IH; [exact Hbody|by left].
Qed.

Lemma pasted_content_closed (body rest : list string) :
  no_blank_pair body = true ->
  pasted_content (body ++ [""%string; ""%string] ++ rest)
  = Some (Text.join newline body, rest).
Proof.
  intros Hbody. unfold pasted_content. cbn [app].
  rewrite (read_lines_body rest body [] 0 Hbody ltac:(by left)).
  cbn [app]. by rewrite removelast_last.
Qed.

(** X15.  The content pasted at the prompt is what was typed before the
    first two empty lines in a row, joined by newlines: single empty
    lines inside it are kept, the two closing ones are dropped, and the
    lines after them are left unread.  Without two empty lines in a row
    the loop reads on until the input ends, which raises. *)
Theorem pasted_content_is_the_text_before_two_empty_lines
    (body rest : list string) :
  no_blank_pair body = true ->
  pasted_content (body ++ [""%string; ""%string] ++ rest)
  = Some (Text.join newline body, rest)
  /\ pasted_content body = None
  /\ pasted_content (body ++ [""%string]) = None.
Proof.
  intros Hbody. split; [by apply pasted_content_closed|].
  unfold pasted_content.
  by destruct (read_lines_eof body [] 0 Hbody ltac:(by left)) as [-> ->].
Qed.

Lemma pasted_content_is_the_text_before_two_empty_lines_witness :
  pasted_content ["Brokers route messages."; ""; "QoS 0 is at most once."; "";
                  ""; "2"; "8.5"]%string
  = Some ("Brokers route messages." +:+ newline +:+ newline
          +:+ "QoS 0 is at most once.", ["2"; "8.5"])%string.
Proof.
  apply (pasted_content_is_the_text_before_two_empty_lines
           ["Brokers route messages."; ""; "QoS 0 is at most once."]%string
           ["2"; "8.5"]%string).
  reflexivity.
Defined.

(** * The configuration check *)

(** X16.  The configuration check of the main program passes exactly
    when [AzureConfig()] raises nothing.  A configuration that was built
    has a non-empty endpoint and key taken from the environment, and the
    deployment name and API version of the environment or else
    [o4-mini] and [2024-12-01-preview]; the only exception is a
    [ValueError]. *)
Theorem check_passes_iff_config_builds (environ : gmap string string) :
  (check_azure_configuration environ = true
   <-> exists config, AzureConfig.__init__ environ = inr config)
  /\ (forall config,
        AzureConfig.__init__ environ = inr config ->
        (exists endpoint,
            environ !! "AZURE_OPENAI_ENDPOINT"%string = Some endpoint
            /\ AzureConfig.endpoint config = Some endpoint
            /\ endpoint <> ""%string)
        /\ (exists api_key,
               environ !! "AZURE_OPENAI_API_KEY"%string = Some api_key
               /\ AzureConfig.api_key config = Some api_key
               /\ api_key <> ""%string)
        /\ AzureConfig.deployment_name config
           = default "o4-mini"%string
               (environ !! "AZURE_OPENAI_CHAT_DEPLOYMENT_NAME"%string)
        /\ AzureConfig.api_version config
           = default "2024-12-01-preview"%string
               (environ !! "AZURE_OPENAI_API_VERSION"%string))
  /\ (forall e,
        AzureConfig.__init__ environ = inl e -> exists message, e = ValueError message).
Proof.
  unfold check_azure_configuration, AzureConfig.__init__. cbv zeta.
  destruct (environ !! "AZURE_OPENAI_ENDPOINT"%string) as [endpoint|] eqn:He;
    destruct (environ !! "AZURE_OPENAI_API_KEY"%string) as [api_key|] eqn:Hk;
    cbn [unset orb].
  2-4: rewrite ?orb_true_r;
       (split; [split; [by repeat case_match|by intros [? ?]]|]);
       (split; [done|intros e [= <-]; eauto]).
  destruct (String.eqb endpoint "") eqn:Hendpoint;
    destruct (String.eqb api_key "") eqn:Hapi_key; cbn [orb].
  1-3: (split; [split; [done|by intros [? ?]]|]);
       (split; [done|intros e [= <-]; eauto]).
  apply String.eqb_neq in Hendpoint, Hapi_key.
  split; [split; eauto|]. split; [|done].
  intros config [= <-]. cbn. eauto 10.
Qed.

(** * The difficulty distribution *)

Lemma difficulty_counts_fold (flashcards : list QAFlashcard) :
  forall (counts : gmap string nat) (level : string),
  default 0%nat
    (fold_left
       (fun counts card =>
          <[difficulty card := (default 0%nat (counts !! difficulty card) + 1)%nat]>
            counts)
       flashcards counts !! level)
  = (default 0%nat (counts !! level) + cards_of level flashcards)%nat
  /\ (is_Some
        (fold_left
           (fun counts card =>
              <[difficulty card := (default 0%nat (counts !! difficulty card) + 1)%nat]>
                counts)
           flashcards counts !! level)
      <-> is_Some (counts !! level) \/ (0 < cards_of level flashcards)%nat).
Proof.
  unfold cards_of.
  induction flashcards as [|card flashcards IH]; intros counts level.
  - cbn [fold_left]. rewrite filter_nil. cbn [length].
    split; [lia|]. split; [by left|]. intros [H|H]; [done|lia].
  - cbn [fold_left]. destruct (IH (<[difficulty card :=
      (default 0%nat (counts !! difficulty card) + 1)%nat]> counts) level)
      as [-> ->].
    destruct (decide (difficulty card = level)) as [<-|Hother].
    + rewrite filter_cons_True by done.
      rewrite lookup_insert_eq. cbn [default from_option length].
      unfold Datatypes.id. split; [lia|].
      split; [intros _; right; lia|intros _; left; eauto].
    + rewrite filter_cons_False by done.
      rewrite lookup_insert_ne by done. split; [done|]. tauto.
Qed.

(** X17.  The difficulty distribution of the printed summary counts
    every card exactly once: a difficulty is listed exactly when some
    card has it, and its count is the number of cards that have it. *)
Theorem difficulty_counts_are_exact (flashcards : list QAFlashcard) (level : string) :
  difficulty_counts flashcards !! level
  = (if decide (cards_of level flashcards = 0)%nat then None
     else Some (cards_of level flashcards)).
Proof.
  unfold difficulty_counts.
  destruct (difficulty_counts_fold flashcards ∅ level) as [Hcount Hlisted].
  rewrite lookup_empty in Hcount, Hlisted. cbn [default] in Hcount.
  destruct (decide (cards_of level flashcards = 0)%nat) as [Hzero|Hsome].
  - apply eq_None_not_Some. rewrite Hlisted.
    intros [[? [=]]|Hpos]. lia.
  - assert (is_Some
              (fold_left
                 (fun counts card =>
                    <[difficulty card :=
                        (default 0%nat (counts !! difficulty card) + 1)%nat]> counts)
                 flashcards ∅ !! level)) as [n Hn]
      by (apply Hlisted; right; lia).
    rewrite Hn in Hcount |- *. cbn [default from_option] in Hcount.
    unfold Datatypes.id in Hcount. f_equal. lia.
Qed.

(** * From the prompt to the loop *)

Lemma blank_append (s1 s2 : string) :
  Text.blank (s1 +:+ s2) = Text.blank s1 && Text.blank s2.
Proof.
  induction s1 as [|c s1 IH]; [done|].
  change (String c s1 +:+ s2) with (String c (s1 +:+ s2)).
  cbn [Text.blank]. by rewrite IH, andb_assoc.
Qed.

Lemma blank_join (lines : list string) :
  Text.blank (Text.join newline lines) = forallb Text.blank lines.
Proof.
  induction lines as [|line lines IH]; [done|].
  destruct lines as [|next lines]; [cbn; by rewrite andb_true_r|].
  change (Text.join newline (line :: next :: lines))
    with (line +:+ newline +:+ Text.join newline (next :: lines)).
  rewrite !blank_append, IH. cbn [forallb]. f_equal.
Qed.

Lemma append_empty (s1 s2 : string) :
  s1 +:+ s2 = ""%string -> s1 = ""%string /\ s2 = ""%string.
Proof. by destruct s1. Qed.

Lemma join_not_empty (line : string) (lines : list string) :
  no_blank_pair (line :: lines) = true ->
  Text.join newline (line :: lines) <> ""%string.
Proof.
  destruct lines as [|next lines].
  - cbn. by destruct line.
  - intros _.
    change (Text.join newline (line :: next :: lines))
      with (line +:+ newline +:+ Text.join newline (next :: lines)).
    intros [_ [[=] _]%append_empty]%append_empty.
Qed.

(** X18.  What the interactive mode hands to [create_flashcards] after a
    paste: closing the paste at once raises the [ValueError] of a missing
    content, pasting nothing but white space raises the one of an
    unusable content, and any other text reaches the loop exactly as
    typed, inner empty lines and surrounding white space included. *)
Theorem pasted_text_reaches_the_loop {W : Type}
    (auto_generate : string -> string -> W -> option string * W)
    (wikipedia_summary : string -> option string)
    (body rest : list string) (topic content_file : string)
    (difficulty : DifficultyLevel) (files : gmap string string) (w : W) :
  no_blank_pair body = true ->
  pasted_content (body ++ [""%string; ""%string] ++ rest)
  = Some (Text.join newline body, rest)
  /\ final_content_of auto_generate wikipedia_summary topic
       (Text.join newline body) DIRECT_INPUT content_file difficulty files w
     = match body with
       | [] =>
           inl (ValueError "Content must be provided when using DIRECT_INPUT source")
       | _ :: _ =>
           if forallb Text.blank body
           then inl (ValueError "No content available for flashcard generation")
           else inr (Text.join newline body, w)
       end.
Proof.
  intros Hbody. split; [by apply pasted_content_closed|].
  unfold final_content_of.
  destruct body as [|line lines]; [reflexivity|].
  pose proof (join_not_empty line lines Hbody) as Hcontent.
  apply String.eqb_neq in Hcontent. rewrite Hcontent.
  by rewrite blank_join.
Qed.

Lemma pasted_text_reaches_the_loop_witness :
  final_content_of no_generation no_article "MQTT"
    (Text.join newline ["Brokers route messages."; ""; "QoS 0 is at most once."])
    DIRECT_INPUT "" INTERMEDIATE ∅ tt
  = inr (Text.join newline
           ["Brokers route messages."; ""; "QoS 0 is at most once."]%string, tt).
Proof.
  apply (pasted_text_reaches_the_loop no_generation no_article
           ["Brokers route messages."; ""; "QoS 0 is at most once."]%string
           [] "MQTT" "" INTERMEDIATE ∅ tt).
  reflexivity.
Defined.
